(** * Pumpfun-bot: the token monitor of [Pumpfunbot.py]

    A shallow embedding of [PumpFunMonitor]: the values a parsed JSON feed
    can hold, the Python built-ins the monitor calls on them, the feed
    client [get_new_tokens], the formatter [format_token_message] and one
    round of the polling loop of [monitor_new_tokens]. *)

From Stdlib Require Import ZArith List Bool Lia String Ascii SpecFloat DecimalPos
  DecimalN.
From stdpp Require Import base decidable countable gmap sets list.
Import ListNotations.

Local Open Scope Z_scope.

(** ** Text

    A Python [str] is a sequence of Unicode code points: [len] and slicing
    count code points, not bytes. *)

Abbreviation char := N (only parsing).
Abbreviation str := (list N) (only parsing).

(** Decoding of the UTF-8 bytes of a literal of this file into code points. *)
Fixpoint utf8_decode (bs : list N) : str :=
  match bs with
  | [] => []
  | b :: r =>
      if (b <? 128)%N then b :: utf8_decode r
      else if (b <? 224)%N then
        match r with
        | c1 :: r1 => ((b - 192) * 64 + (c1 - 128))%N :: utf8_decode r1
        | _ => [b]
        end
      else if (b <? 240)%N then
        match r with
        | c1 :: c2 :: r2 =>
            ((b - 224) * 4096 + (c1 - 128) * 64 + (c2 - 128))%N :: utf8_decode r2
        | _ => [b]
        end
      else
        match r with
        | c1 :: c2 :: c3 :: r3 =>
            ((b - 240) * 262144 + (c1 - 128) * 4096 + (c2 - 128) * 64 + (c3 - 128))%N
              :: utf8_decode r3
        | _ => [b]
        end
  end.

Definition utf8 (s : string) : str :=
  utf8_decode (List.map N_of_ascii (list_ascii_of_string s)).

(** [u "text"] is the literal's code points, computed where it is written. *)
Notation "'u' s" :=
  ltac:(let v := eval vm_compute in (utf8 s) in exact v)
  (at level 9, s at level 0, only parsing).

Definition nl : str := [10%N].

(** ** Values

    What [response.json()] can return: [None], booleans, integers, binary64
    floats, strings, lists, and dicts with string keys, each key once, kept
    in insertion order. *)

#[warnings="-register-all"]
Inductive pyval :=
| PNone
| PBool (b : bool)
| PInt (z : Z)
| PFloat (f : spec_float)
| PStr (s : str)
| PList (l : list pyval)
| PDict (d : list (str * pyval)).

(** The name of the value's type, as [type(v).__name__]. *)
Definition type_name (v : pyval) : str :=
  match v with
  | PNone => u "NoneType"
  | PBool _ => u "bool"
  | PInt _ => u "int"
  | PFloat _ => u "float"
  | PStr _ => u "str"
  | PList _ => u "list"
  | PDict _ => u "dict"
  end.

(** ** Exceptions

    Every exception below is an instance of a subclass of [Exception], so
    each of the three [except Exception] handlers of the program catches
    all of them. *)

Inductive pyexc :=
| AttributeError (obj : pyval) (attr : str)   (* type(obj) has no attribute attr *)
| FormatSpecError (obj : pyval) (spec : str)  (* format(obj, spec): ValueError or TypeError *)
| FloatArgError (obj : pyval)                 (* float(obj): ValueError or TypeError *)
| OverflowError (z : Z)                       (* int too large to convert to float *)
| SubscriptError (obj : pyval)                (* obj[:n] on a value that cannot be sliced *)
| UnhashableError (obj : pyval)               (* unhashable type *)
| NotIterableError (obj : pyval)              (* object is not iterable *)
| ClientError (detail : str)                  (* aiohttp: connection or protocol failure *)
| TimeoutError                                (* aiohttp / asyncio timeout *)
| JSONDecodeError (detail : str)              (* response.json() on a malformed body *)
| ContentTypeError (detail : str).            (* response.json() on a non-JSON content type *)

Inductive result (A : Type) :=
| Ok (a : A)
| Raise (e : pyexc).

Arguments Ok {A} a.
Arguments Raise {A} e.

Definition bind {A B} (r : result A) (k : A -> result B) : result B :=
  match r with
  | Ok a => k a
  | Raise e => Raise e
  end.

Declare Scope py_scope.
Delimit Scope py_scope with py.
Notation "x <- c ;; k" := (bind c (fun x => k))
  (at level 100, c at next level, right associativity) : py_scope.

(** [try: body / except Exception as e: handler e]. *)
Definition try_except {A} (body : result A) (handler : pyexc -> result A) : result A :=
  match body with
  | Ok a => Ok a
  | Raise e => handler e
  end.

(** ** The parts of the Python runtime taken as given

    [py_repr] is [repr] (equal to [str] on every value that is not a
    string), [float_of_str] is [float] on a string ([None] when it raises
    [ValueError]) and [exc_str] is [str(e)] on an exception. *)

Class Runtime := {
  py_repr : pyval -> str;
  float_of_str : str -> option spec_float;
  exc_str : pyexc -> str
}.

(** ** Built-ins *)

(** Truth value of a value, as [if v:] tests it. *)
Definition truthy (v : pyval) : bool :=
  match v with
  | PNone => false
  | PBool b => b
  | PInt z => negb (z =? 0)
  | PFloat (S754_zero _) => false
  | PFloat _ => true
  | PStr s => negb (Nat.eqb (length s) 0)
  | PList l => negb (Nat.eqb (length l) 0)
  | PDict d => negb (Nat.eqb (length d) 0)
  end.

Definition isinstance_list (v : pyval) : bool :=
  match v with PList _ => true | _ => false end.

Definition isinstance_dict (v : pyval) : bool :=
  match v with PDict _ => true | _ => false end.

Fixpoint dict_lookup (d : list (str * pyval)) (key : str) : option pyval :=
  match d with
  | [] => None
  | (k, v) :: rest => if decide (k = key) then Some v else dict_lookup rest key
  end.

Definition dict_get (d : list (str * pyval)) (key : str) (dflt : pyval) : pyval :=
  default dflt (dict_lookup d key).

(** [obj.get(key, default)]: only a dict has the method. *)
Definition py_get (obj : pyval) (key : str) (dflt : pyval) : result pyval :=
  match obj with
  | PDict d => Ok (dict_get d key dflt)
  | _ => Raise (AttributeError obj (u "get"))
  end.

(** [str(v)], as an f-string renders a field without format spec. *)
Definition py_str `{Runtime} (v : pyval) : str :=
  match v with
  | PStr s => s
  | _ => py_repr v
  end.

(** [v[:n]]. *)
Definition py_slice_to (n : nat) (v : pyval) : result pyval :=
  match v with
  | PStr s => Ok (PStr (take n s))
  | PList l => Ok (PList (take n l))
  | _ => Raise (SubscriptError v)
  end.

(** [len(v)], on the values that have a length. *)
Definition py_len (v : pyval) : result Z :=
  match v with
  | PStr s => Ok (Z.of_nat (length s))
  | PList l => Ok (Z.of_nat (length l))
  | PDict d => Ok (Z.of_nat (length d))
  | _ => Raise (SubscriptError v)
  end.

(** [for x in v]: the elements a [for] loop visits. *)
Definition py_iter (v : pyval) : result (list pyval) :=
  match v with
  | PList l => Ok l
  | PStr s => Ok (List.map (fun c => PStr [c]) s)
  | PDict d => Ok (List.map (fun kv => PStr (fst kv)) d)
  | _ => Raise (NotIterableError v)
  end.

(** ** Numbers and the [f] presentation type *)

Definition digit (d : Z) : char := Z.to_N (48 + d).

Fixpoint uint_chars (d : Decimal.uint) : str :=
  match d with
  | Decimal.Nil => []
  | Decimal.D0 r => digit 0 :: uint_chars r
  | Decimal.D1 r => digit 1 :: uint_chars r
  | Decimal.D2 r => digit 2 :: uint_chars r
  | Decimal.D3 r => digit 3 :: uint_chars r
  | Decimal.D4 r => digit 4 :: uint_chars r
  | Decimal.D5 r => digit 5 :: uint_chars r
  | Decimal.D6 r => digit 6 :: uint_chars r
  | Decimal.D7 r => digit 7 :: uint_chars r
  | Decimal.D8 r => digit 8 :: uint_chars r
  | Decimal.D9 r => digit 9 :: uint_chars r
  end.

(** Decimal digits of a natural number, without leading zeros. *)
Definition dec (n : Z) : str := uint_chars (N.to_uint (Z.to_N n)).

(** The last [p] decimal digits of [n], zero-padded. *)
Fixpoint frac_digits (p : nat) (n : Z) : str :=
  match p with
  | O => []
  | S q => frac_digits q (n / 10) ++ [digit (n mod 10)]
  end.

(** The [,] option: a comma before every group of three digits, counted
    from the right; [commas_rev] works on the reversed digits. *)
Fixpoint commas_rev (ds : str) : str :=
  match ds with
  | a :: b :: c :: ((_ :: _) as rest) => a :: b :: c :: 44%N :: commas_rev rest
  | _ => ds
  end.

Definition group_thousands (ds : str) : str := rev (commas_rev (rev ds)).

(** [a / b] rounded to the nearest integer, ties to even ([0 <= a], [0 < b]). *)
Definition round_half_even (a b : Z) : Z :=
  let q := a / b in
  match 2 * (a mod b) ?= b with
  | Lt => q
  | Gt => q + 1
  | Eq => if Z.even q then q else q + 1
  end.

(** [m * 2^e * 10^p] rounded to an integer: the float's magnitude in units
    of the last printed decimal. *)
Definition scaled (p : nat) (m : positive) (e : Z) : Z :=
  if 0 <=? e then Z.pos m * 2 ^ e * 10 ^ Z.of_nat p
  else round_half_even (Z.pos m * 10 ^ Z.of_nat p) (2 ^ (- e)).

Definition fixed_digits (grouping : bool) (p : nat) (n : Z) : str :=
  let int_part := dec (n / 10 ^ Z.of_nat p) in
  (if grouping then group_thousands int_part else int_part)
    ++ u "." ++ frac_digits p (n mod 10 ^ Z.of_nat p).

Definition sign_str (s : bool) : str := if s then u "-" else [].

(** [format(f, ",.pf")] ([grouping]) and [format(f, ".pf")] on a float. *)
Definition format_float_f (grouping : bool) (p : nat) (f : spec_float) : str :=
  match f with
  | S754_nan => u "nan"
  | S754_infinity s => sign_str s ++ u "inf"
  | S754_zero s => sign_str s ++ fixed_digits grouping p 0
  | S754_finite s m e => sign_str s ++ fixed_digits grouping p (scaled p m e)
  end.

(** [float(z)] on an int: the nearest binary64, [OverflowError] beyond its
    range. *)
Definition float_of_int (z : Z) : result spec_float :=
  match binary_normalize 53 1024 z 0 false with
  | S754_infinity _ => Raise (OverflowError z)
  | f => Ok f
  end.

Definition spec_text (grouping : bool) (p : nat) : str :=
  (if grouping then u "," else []) ++ u "." ++ dec (Z.of_nat p) ++ u "f".

(** The float that [format(v, ",.pf")] prints: ints (and so bools) are
    converted first; no other type accepts the spec. *)
Definition float_to_format (grouping : bool) (p : nat) (v : pyval)
  : result spec_float :=
  match v with
  | PBool b => float_of_int (if b then 1 else 0)
  | PInt z => float_of_int z
  | PFloat f => Ok f
  | _ => Raise (FormatSpecError v (spec_text grouping p))
  end.

(** [format(v, ",.pf")] / [format(v, ".pf")]. *)
Definition py_format_f (grouping : bool) (p : nat) (v : pyval) : result str :=
  (f <- float_to_format grouping p v ;; Ok (format_float_f grouping p f))%py.

(** [float(v)]. *)
Definition py_float `{Runtime} (v : pyval) : result spec_float :=
  match v with
  | PBool b => float_of_int (if b then 1 else 0)
  | PInt z => float_of_int z
  | PFloat f => Ok f
  | PStr s =>
      match float_of_str s with
      | Some f => Ok f
      | None => Raise (FloatArgError v)
      end
  | _ => Raise (FloatArgError v)
  end.

(** ** The formatter *)

(** Line 101: [f"${market_cap:,.2f}" if market_cap else "N/A"]. *)
Definition format_market_cap (market_cap : pyval) : result str :=
  if truthy market_cap
  then (s <- py_format_f true 2 market_cap ;; Ok (u "$" ++ s))%py
  else Ok (u "N/A").

(** Line 102: [f"${float(price):.8f}" if price else "N/A"]. *)
Definition format_price `{Runtime} (price : pyval) : result str :=
  if truthy price
  then (f <- py_float price ;; Ok (u "$" ++ format_float_f false 8 f))%py
  else Ok (u "N/A").

(** Lines 105-123: the f-string, with its replacement fields as arguments. *)
Definition message_template
  (name symbol mint creator price_formatted market_cap_formatted
   description_head ellipsis : str) : str :=
  nl ++ u "🚀 <b>NEW TOKEN LISTED ON PUMP.FUN</b>" ++ nl
  ++ nl
  ++ u "💎 <b>Name:</b> " ++ name ++ nl
  ++ u "🎯 <b>Symbol:</b> $" ++ symbol ++ nl
  ++ u "🔑 <b>Contract:</b> <code>" ++ mint ++ u "</code>" ++ nl
  ++ u "👤 <b>Creator:</b> <code>" ++ creator ++ u "</code>" ++ nl
  ++ nl
  ++ u "💰 <b>Price:</b> " ++ price_formatted ++ nl
  ++ u "📊 <b>Market Cap:</b> " ++ market_cap_formatted ++ nl
  ++ nl
  ++ u "📝 <b>Description:</b>" ++ nl
  ++ description_head ++ ellipsis ++ nl
  ++ nl
  ++ u "🔗 <b>Links:</b>" ++ nl
  ++ u "• Pump.fun: https://pump.fun/" ++ mint ++ nl
  ++ u "• DEXScreener: https://dexscreener.com/solana/" ++ mint ++ nl
  ++ u "• Birdeye: https://birdeye.so/token/" ++ mint ++ nl.

(** Lines 126-131: the optional link lines. *)
Definition social_links `{Runtime} (website twitter telegram : pyval) : str :=
  (if truthy website then u "• Website: " ++ py_str website ++ nl else [])
  ++ (if truthy twitter then u "• Twitter: " ++ py_str twitter ++ nl else [])
  ++ (if truthy telegram then u "• Telegram: " ++ py_str telegram ++ nl else []).

(** Line 133; [now] is [datetime.now().strftime('%Y-%m-%d %H:%M:%S UTC')]. *)
Definition detected_at (now : str) : str :=
  nl ++ u "⏰ <b>Detected at:</b> " ++ now.

(** The body of the [try] of [format_token_message], lines 84-135. *)
Definition format_token_message_body `{Runtime} (now : str) (token : pyval)
  : result str :=
  (name <- py_get token (u "name") (PStr (u "Unknown")) ;;
   symbol <- py_get token (u "symbol") (PStr (u "N/A")) ;;
   mint <- py_get token (u "mint") (PStr (u "N/A")) ;;
   description <-
     py_get token (u "description") (PStr (u "No description available")) ;;
   market_cap <- py_get token (u "usd_market_cap") (PInt 0) ;;
   price <- py_get token (u "price_usd") (PInt 0) ;;
   creator <- py_get token (u "creator") (PStr (u "Unknown")) ;;
   website <- py_get token (u "website") (PStr []) ;;
   telegram <- py_get token (u "telegram") (PStr []) ;;
   twitter <- py_get token (u "twitter") (PStr []) ;;
   market_cap_formatted <- format_market_cap market_cap ;;
   price_formatted <- format_price price ;;
   description_head <- py_slice_to 200 description ;;
   description_len <- py_len description ;;
   Ok (message_template (py_str name) (py_str symbol) (py_str mint)
         (py_str creator) price_formatted market_cap_formatted
         (py_str description_head)
         (if 200 <? description_len then u "..." else [])
       ++ social_links website twitter telegram
       ++ detected_at now))%py.

(** Lines 137-139: the text returned by the [except] branch. *)
Definition error_message `{Runtime} (e : pyexc) : str :=
  u "Error formatting token data: " ++ exc_str e.

Definition format_token_message `{Runtime} (now : str) (token : pyval) : str :=
  match format_token_message_body now token with
  | Ok message => message
  | Raise e => error_message e
  end.

(** ** The feed client *)

(** What [response.json()] does with the body of the response. *)
Inductive body_outcome :=
| BodyJson (data : pyval)
| BodyError (e : pyexc).

(** What [session.get] does: it raises, or a response arrives. *)
Inductive http_outcome :=
| RequestFailed (e : pyexc)
| Response (status : Z) (body : body_outcome).

Definition response_json (body : body_outcome) : result pyval :=
  match body with
  | BodyJson data => Ok data
  | BodyError e => Raise e
  end.

(** The body of the [try] of [get_new_tokens], lines 56-75. *)
Definition get_new_tokens_body (o : http_outcome) : result pyval :=
  match o with
  | RequestFailed e => Raise e
  | Response status body =>
      if status =? 200 then
        (data <- response_json body ;;
         if isinstance_list data then Ok data
         else py_get data (u "coins") (PList []))%py
      else Ok (PList [])
  end.

Definition get_new_tokens (o : http_outcome) : result pyval :=
  try_except (get_new_tokens_body o) (fun _ => Ok (PList [])).

(** ** The seen set

    [seen_tokens] is a Python [set]: its members are compared by [==], so
    an int, a bool and a float of the same value are one member. A key is
    the string, or the number as [m * 2^e] with [m] odd. The JSON decoder
    returns one and the same object for every [NaN], which the set finds by
    identity. Lists and dicts are unhashable. *)

Inductive hkey :=
| HStr (s : str)
| HNum (m : Z) (e : Z)
| HInf (negative : bool)
| HNan
| HNone.

#[global] Instance hkey_eq_dec : EqDecision hkey.
Proof. solve_decision. Defined.

Definition hkey_code (k : hkey) : str + (Z * Z) + bool + bool :=
  match k with
  | HStr s => inl (inl (inl s))
  | HNum m e => inl (inl (inr (m, e)))
  | HInf b => inl (inr b)
  | HNan => inr true
  | HNone => inr false
  end.

Definition hkey_decode (c : str + (Z * Z) + bool + bool) : hkey :=
  match c with
  | inl (inl (inl s)) => HStr s
  | inl (inl (inr (m, e))) => HNum m e
  | inl (inr b) => HInf b
  | inr true => HNan
  | inr false => HNone
  end.

#[global] Instance hkey_countable : Countable hkey.
Proof.
  apply (inj_countable' hkey_code hkey_decode). intros []; reflexivity.
Defined.

(** [p = q * 2^k] with [q] odd. *)
Fixpoint odd_part (p : positive) : positive * Z :=
  match p with
  | xO q => let '(r, k) := odd_part q in (r, k + 1)
  | _ => (p, 0)
  end.

Definition num_key (negative : bool) (m : positive) (e : Z) : hkey :=
  let '(r, k) := odd_part m in
  HNum (if negative then Z.neg r else Z.pos r) (e + k).

Definition hash_key (v : pyval) : result hkey :=
  match v with
  | PStr s => Ok (HStr s)
  | PNone => Ok HNone
  | PBool b => Ok (if b then num_key false 1 0 else HNum 0 0)
  | PInt (Z.pos p) => Ok (num_key false p 0)
  | PInt (Z.neg p) => Ok (num_key true p 0)
  | PInt Z0 => Ok (HNum 0 0)
  | PFloat (S754_finite s m e) => Ok (num_key s m e)
  | PFloat (S754_zero _) => Ok (HNum 0 0)
  | PFloat (S754_infinity s) => Ok (HInf s)
  | PFloat S754_nan => Ok HNan
  | PList _ | PDict _ => Raise (UnhashableError v)
  end.

(** ** The monitor

    The state of [PumpFunMonitor] that changes while it runs is
    [seen_tokens]. A run is observed through the POST requests it issues
    and the pauses it takes; the logger's lines are not part of the model. *)

Record PumpFunMonitor := { seen_tokens : gset hkey }.

Inductive event :=
| Post (text : str)     (* session.post(.../sendMessage, json={..., "text": text}) *)
| Sleep (secs : Z).     (* asyncio.sleep(secs) *)

(** Computations of the monitor: they read and update the state, emit
    events, and return or raise. *)
Definition M (A : Type) : Type :=
  PumpFunMonitor -> result A * PumpFunMonitor * list event.

Definition ret {A} (a : A) : M A := fun st => (Ok a, st, []).

Definition mbind {A B} (c : M A) (k : A -> M B) : M B :=
  fun st =>
    match c st with
    | (Ok a, st1, ev1) => let '(r, st2, ev2) := k a st1 in (r, st2, ev1 ++ ev2)
    | (Raise e, st1, ev1) => (Raise e, st1, ev1)
    end.

Declare Scope mon_scope.
Delimit Scope mon_scope with mon.
Notation "x <- c ;; k" := (mbind c (fun x => k))
  (at level 100, c at next level, right associativity) : mon_scope.
Notation "c ;;; k" := (mbind c (fun _ => k))
  (at level 100, k at level 200, right associativity) : mon_scope.

Definition lift {A} (r : result A) : M A := fun st => (r, st, []).

Definition emit (ev : event) : M unit := fun st => (Ok tt, st, [ev]).

Definition get_seen : M (gset hkey) := fun st => (Ok (seen_tokens st), st, []).

Definition seen_add (k : hkey) : M unit :=
  fun st => (Ok tt, {| seen_tokens := {[k]} ∪ seen_tokens st |}, []).

(** [try: body / except Exception: handler], keeping the state and the
    events reached when the exception was raised. *)
Definition mtry {A} (body : M A) (handler : pyexc -> M A) : M A :=
  fun st =>
    match body st with
    | (Ok a, st1, ev1) => (Ok a, st1, ev1)
    | (Raise e, st1, ev1) =>
        let '(r, st2, ev2) := handler e st1 in (r, st2, ev1 ++ ev2)
    end.

(** What the POST of [send_telegram_message] does. *)
Inductive post_outcome :=
| PostFailed (e : pyexc)
| PostResponse (status : Z) (error_text : result str).

(** Lines 33-51. The request is issued; whatever comes back only selects
    the line that is logged. *)
Definition send_telegram_message (o : post_outcome) (message : str) : M unit :=
  (emit (Post message) ;;;
   lift (try_except
           match o with
           | PostFailed e => Raise e
           | PostResponse status error_text =>
               if status =? 200 then Ok tt
               else (_ <- error_text ;; Ok tt)%py
           end
           (fun _ => Ok tt)))%mon.

(** What one round of the loop meets: the outcome of the feed request and,
    for the token at position [k] of the batch, the clock text read when it
    is formatted and the outcome of its POST. *)
Record round_input := {
  feed : http_outcome;
  now_at : nat -> str;
  post_at : nat -> post_outcome
}.

(** [token_mint not in self.seen_tokens]. *)
Definition not_in_seen (token_mint : pyval) : M bool :=
  (k <- lift (hash_key token_mint) ;;
   seen <- get_seen ;;
   ret (bool_decide (k ∉ seen)))%mon.

(** Lines 154-162: the body of the [for] loop, for the token at position [k]. *)
Definition handle_token `{Runtime} (inp : round_input) (k : nat) (token : pyval)
  : M unit :=
  (token_mint <- lift (py_get token (u "mint") (PStr [])) ;;
   if truthy token_mint then
     is_new <- not_in_seen token_mint ;;
     if (is_new : bool) then
       key <- lift (hash_key token_mint) ;;
       seen_add key ;;;
       let message := format_token_message (now_at inp k) token in
       send_telegram_message (post_at inp k) message ;;;
       emit (Sleep 2)
     else ret tt
   else ret tt)%mon.

(** Line 153: [for token in tokens]. *)
Fixpoint for_tokens `{Runtime} (inp : round_input) (k : nat) (tokens : list pyval)
  : M unit :=
  match tokens with
  | [] => ret tt
  | token :: rest =>
      (handle_token inp k token ;;; for_tokens inp (S k) rest)%mon
  end.

(** Lines 150-169: the body of the [try] inside [while True]. *)
Definition monitor_round_body `{Runtime} (inp : round_input) : M unit :=
  (tokens <- lift (get_new_tokens (feed inp)) ;;
   (if truthy tokens then
      items <- lift (py_iter tokens) ;;
      for_tokens inp 0 items ;;;
      _ <- lift (py_len tokens) ;;
      ret tt
    else ret tt) ;;;
   emit (Sleep 30))%mon.

(** Lines 149-173: one pass through [while True]. *)
Definition monitor_round `{Runtime} (inp : round_input) : M unit :=
  mtry (monitor_round_body inp) (fun _ => emit (Sleep 60)).

(** Line 146, then the loop for as many rounds as there are inputs. *)
Definition startup_message : str :=
  u "🤖 Pump.fun Token Monitor Started!" ++ nl
  ++ u "Watching for new token listings...".

Fixpoint monitor_rounds `{Runtime} (inputs : list round_input) : M unit :=
  match inputs with
  | [] => ret tt
  | inp :: rest => (monitor_round inp ;;; monitor_rounds rest)%mon
  end.

Definition monitor_new_tokens `{Runtime} (start : post_outcome)
  (inputs : list round_input) : M unit :=
  (send_telegram_message start startup_message ;;; monitor_rounds inputs)%mon.

(** A freshly constructed monitor, line 18. *)
Definition init : PumpFunMonitor := {| seen_tokens := ∅ |}.

(** The POST texts among the events: the notifications sent. *)
Definition posts (evs : list event) : list str :=
  omap (fun ev => match ev with Post text => Some text | Sleep _ => None end) evs.

(** Reachable states: those the monitor is in between two rounds. *)
Inductive reachable `{Runtime} : PumpFunMonitor -> Prop :=
| reach_init : reachable init
| reach_round inp st r st' evs :
    reachable st -> monitor_round inp st = (r, st', evs) -> reachable st'.

(** The empty string is not in the seen set. *)
Definition no_empty_key (st : PumpFunMonitor) : Prop := HStr [] ∉ seen_tokens st.

(** ** The words of the specification *)

Definition is_digit (c : char) : Prop := (48 <= c <= 57)%N.

(** A thousands-grouped natural number: one to three digits, then groups
    of a comma and three digits. *)
Inductive grouped_int : str -> Prop :=
| grouped_head ds :
    (1 <= length ds <= 3)%nat -> Forall is_digit ds -> grouped_int ds
| grouped_more g a b c :
    grouped_int g -> is_digit a -> is_digit b -> is_digit c ->
    grouped_int (g ++ [44%N; a; b; c]).

Definition is_sign (s : str) : Prop := s = [] \/ s = u "-".

(** A thousands-grouped currency string with 2 decimal places. *)
Definition grouped_currency_2dp (s : str) : Prop :=
  exists sign g a b,
    s = u "$" ++ sign ++ g ++ u "." ++ [a; b]
    /\ is_sign sign /\ grouped_int g /\ is_digit a /\ is_digit b.

(** A currency string with [p] decimal places and no grouping. *)
Definition currency_dp (p : nat) (s : str) : Prop :=
  exists sign ip fr,
    s = u "$" ++ sign ++ ip ++ u "." ++ fr
    /\ is_sign sign /\ ip <> [] /\ Forall is_digit ip
    /\ Forall is_digit fr /\ length fr = p.

Definition is_finite (f : spec_float) : bool :=
  match f with
  | S754_zero _ | S754_finite _ _ _ => true
  | _ => false
  end.

(** The description segment: the first 200 characters and an ellipsis
    marker when the description is longer, the description otherwise. *)
Definition description_segment (description : str) : str :=
  if (200 <? length description)%nat then take 200 description ++ u "..."
  else description.

(** The shapes of a feed body. *)
Inductive body_shape :=
| BareList (l : list pyval)
| CoinsObject (l : list pyval)
| NeitherShape.

Definition body_shape_of (data : pyval) : body_shape :=
  match data with
  | PList l => BareList l
  | PDict d =>
      match dict_lookup d (u "coins") with
      | Some (PList l) => CoinsObject l
      | _ => NeitherShape
      end
  | _ => NeitherShape
  end.

(** The failure outcomes of the feed request: the request raises (network
    error, timeout), the status is not 200, or the body does not parse. *)
Definition feed_failure (o : http_outcome) : bool :=
  match o with
  | RequestFailed _ => true
  | Response status body =>
      negb (status =? 200)
      || match body with BodyError _ => true | BodyJson _ => false end
  end.

(** The number that a string of decimal digits denotes. *)
Definition digits_value (s : str) : Z :=
  fold_left (fun acc c => 10 * acc + (Z.of_N c - 48)) s 0.

(** A grouped number without its commas. *)
Definition ungroup (s : str) : str := List.filter (fun c => negb (c =? 44)%N) s.

Definition float_negative (f : spec_float) : bool :=
  match f with
  | S754_zero s | S754_infinity s | S754_finite s _ _ => s
  | S754_nan => false
  end.

(** [n] is the magnitude of the finite float [f] in units of [10^-p],
    rounded to the nearest integer, a tie going to the even one. *)
Definition nearest_scaled (p : nat) (f : spec_float) (n : Z) : Prop :=
  match f with
  | S754_zero _ => n = 0
  | S754_finite _ m e =>
      if 0 <=? e then n = Z.pos m * 2 ^ e * 10 ^ Z.of_nat p
      else
        2 * Z.abs (n * 2 ^ (- e) - Z.pos m * 10 ^ Z.of_nat p) <= 2 ^ (- e)
        /\ (2 * Z.abs (n * 2 ^ (- e) - Z.pos m * 10 ^ Z.of_nat p) = 2 ^ (- e) ->
            Z.even n = true)
  | _ => False
  end.

(** [text] is the currency text of the float [f] with [p] decimal places:
    a dollar sign, a minus sign for a negative float, the digits of the
    integer part (grouped by thousands when [grouped]), a point and [p]
    digits, and the number it denotes is [f] rounded to [p] places. *)
Definition prints_as (grouped : bool) (p : nat) (f : spec_float) (text : str)
  : Prop :=
  exists ip fr,
    text = u "$" ++ (if float_negative f then u "-" else []) ++ ip ++ u "." ++ fr
    /\ (if grouped then grouped_int ip else ip <> [] /\ Forall is_digit ip)
    /\ Forall is_digit fr /\ length fr = p
    /\ nearest_scaled p f
         (digits_value (ungroup ip) * 10 ^ Z.of_nat p + digits_value fr).

(** The lines of a listing notification, from its fields. *)
Definition listing_lines
  (name symbol mint creator price_text market_cap_text description_text : str)
  : list str :=
  [ [];
    u "🚀 <b>NEW TOKEN LISTED ON PUMP.FUN</b>";
    [];
    u "💎 <b>Name:</b> " ++ name;
    u "🎯 <b>Symbol:</b> $" ++ symbol;
    u "🔑 <b>Contract:</b> <code>" ++ mint ++ u "</code>";
    u "👤 <b>Creator:</b> <code>" ++ creator ++ u "</code>";
    [];
    u "💰 <b>Price:</b> " ++ price_text;
    u "📊 <b>Market Cap:</b> " ++ market_cap_text;
    [];
    u "📝 <b>Description:</b>";
    description_text;
    [];
    u "🔗 <b>Links:</b>";
    u "• Pump.fun: https://pump.fun/" ++ mint;
    u "• DEXScreener: https://dexscreener.com/solana/" ++ mint;
    u "• Birdeye: https://birdeye.so/token/" ++ mint ].

(** The lines of the links that the record gives: website, Twitter,
    Telegram, each only when its field is truthy. *)
Definition link_lines `{Runtime} (d : list (str * pyval)) : list str :=
  (if truthy (dict_get d (u "website") (PStr []))
   then [u "• Website: " ++ py_str (dict_get d (u "website") (PStr []))] else [])
  ++ (if truthy (dict_get d (u "twitter") (PStr []))
      then [u "• Twitter: " ++ py_str (dict_get d (u "twitter") (PStr []))] else [])
  ++ (if truthy (dict_get d (u "telegram") (PStr []))
      then [u "• Telegram: " ++ py_str (dict_get d (u "telegram") (PStr []))] else []).

(** The last lines: an empty one and the time of detection. *)
Definition closing_lines (now : str) : list str :=
  [ []; u "⏰ <b>Detected at:</b> " ++ now ].

(** Lines joined by newlines. *)
Definition join_lines (lines : list str) : str :=
  match lines with
  | [] => []
  | line :: rest => line ++ flat_map (fun l => 10%N :: l) rest
  end.

(** The text of the listing notification of the record [d], with the given
    price, market-cap and description texts. *)
Definition listing_of `{Runtime} (now : str) (d : list (str * pyval))
  (price_text market_cap_text description_text : str) : str :=
  join_lines
    (listing_lines
       (py_str (dict_get d (u "name") (PStr (u "Unknown"))))
       (py_str (dict_get d (u "symbol") (PStr (u "N/A"))))
       (py_str (dict_get d (u "mint") (PStr (u "N/A"))))
       (py_str (dict_get d (u "creator") (PStr (u "Unknown"))))
       price_text market_cap_text description_text
     ++ link_lines d ++ closing_lines now).

(** The numbers among the values; a bool is an int. *)
Definition is_number (v : pyval) : bool :=
  match v with
  | PBool _ | PInt _ | PFloat _ => true
  | _ => false
  end.

(** The message of a record [d] whose price, market cap and description
    segments are the given texts. *)
Definition rendered_message `{Runtime} (now : str) (d : list (str * pyval))
  (price_text market_cap_text description_text : str) : str :=
  message_template
    (py_str (dict_get d (u "name") (PStr (u "Unknown"))))
    (py_str (dict_get d (u "symbol") (PStr (u "N/A"))))
    (py_str (dict_get d (u "mint") (PStr (u "N/A"))))
    (py_str (dict_get d (u "creator") (PStr (u "Unknown"))))
    price_text market_cap_text description_text []
  ++ social_links (dict_get d (u "website") (PStr []))
       (dict_get d (u "twitter") (PStr [])) (dict_get d (u "telegram") (PStr []))
  ++ detected_at now.

(** ** Sample data *)

(** The binary64 nearest to [m * 2^e]. *)
Definition b64 (m e : Z) : spec_float := binary_normalize 53 1024 m e false.

(** A runtime for the examples. Its [float] accepts the strings of ASCII
    digits only, its [repr] names the type, and its [str(e)] has CPython's
    wording for ASCII arguments. *)
Definition sample_exc_str (e : pyexc) : str :=
  match e with
  | AttributeError obj attr =>
      u "'" ++ type_name obj ++ u "' object has no attribute '" ++ attr ++ u "'"
  | FormatSpecError (PStr _) _ => u "Unknown format code 'f' for object of type 'str'"
  | FormatSpecError obj _ =>
      u "unsupported format string passed to " ++ type_name obj ++ u ".__format__"
  | FloatArgError (PStr s) => u "could not convert string to float: '" ++ s ++ u "'"
  | FloatArgError obj =>
      u "float() argument must be a string or a real number, not '"
        ++ type_name obj ++ u "'"
  | OverflowError _ => u "int too large to convert to float"
  | SubscriptError obj => u "'" ++ type_name obj ++ u "' object is not subscriptable"
  | UnhashableError obj => u "unhashable type: '" ++ type_name obj ++ u "'"
  | NotIterableError obj => u "'" ++ type_name obj ++ u "' object is not iterable"
  | ClientError detail | JSONDecodeError detail | ContentTypeError detail => detail
  | TimeoutError => []
  end.

Definition sample_runtime : Runtime := {|
  py_repr v := u "<" ++ type_name v ++ u ">";
  float_of_str s :=
    if forallb (fun c => (48 <=? c)%N && (c <=? 57)%N) s && negb (Nat.eqb (length s) 0)
    then Some (b64 (digits_value s) 0) else None;
  exc_str := sample_exc_str
|}.

Definition now0 : str := u "2024-01-01 00:00:00 UTC".

Definition mint_only (mint : string) : pyval := PDict [(u "mint", PStr (utf8 mint))].

Definition feed_ABA : pyval :=
  PList [mint_only "A"; mint_only "B"; mint_only "A"].

Definition sample_input (data : pyval) : round_input := {|
  feed := Response 200 (BodyJson data);
  now_at _ := now0;
  post_at _ := PostResponse 200 (Ok [])
|}.

(** [{"mint": "A", "usd_market_cap": 1e400}]: the literal parses to [inf]. *)
Definition token_infinite_cap : list (str * pyval) :=
  [(u "mint", PStr (u "A")); (u "usd_market_cap", PFloat (S754_infinity false))].

(** [{"mint": "A", "usd_market_cap": "abc"}]. *)
Definition token_text_cap : list (str * pyval) :=
  [(u "mint", PStr (u "A")); (u "usd_market_cap", PStr (u "abc"))].

(** [{"mint": "A", "price_usd": "abc"}]. *)
Definition token_text_price : list (str * pyval) :=
  [(u "mint", PStr (u "A")); (u "price_usd", PStr (u "abc"))].

(** [{"mint": "A", "usd_market_cap": 1234567.5, "price_usd": 0.125}]. *)
Definition token_priced : list (str * pyval) :=
  [(u "mint", PStr (u "A")); (u "usd_market_cap", PFloat (b64 2469135 (-1)));
   (u "price_usd", PFloat (b64 1 (-3)))].

(** A record whose description has [n] characters. *)
Definition token_described (n : nat) : list (str * pyval) :=
  [(u "mint", PStr (u "A")); (u "description", PStr (replicate n 120%N))].

(** A record with a description of 250 characters and the market cap
    [10^400], an int beyond the range of the floats. *)
Definition token_described_huge_cap : list (str * pyval) :=
  [(u "mint", PStr (u "A")); (u "description", PStr (replicate 250 120%N));
   (u "usd_market_cap", PInt (10 ^ 400))].

(** [{"mint": "A", "name": "", "usd_market_cap": "abc"}]. *)
Definition token_empty_name_text_cap : list (str * pyval) :=
  [(u "mint", PStr (u "A")); (u "name", PStr []);
   (u "usd_market_cap", PStr (u "abc"))].

(** [{"name": "no mint"}]. *)
Definition token_without_mint : list (str * pyval) :=
  [(u "name", PStr (u "no mint"))].

(** [{"mint": "A", "name": "", "description": ""}]. *)
Definition token_empty_texts : list (str * pyval) :=
  [(u "mint", PStr (u "A")); (u "name", PStr []); (u "description", PStr [])].

(** The message for a record that has a mint and nothing else. *)
Definition message_for (mint now : str) : str :=
  message_template (u "Unknown") (u "N/A") mint (u "Unknown") (u "N/A") (u "N/A")
    (u "No description available") []
  ++ detected_at now.

(** ** Notions for the properties of the loop *)

(** The values that can be members of a set. *)
Definition hashable (v : pyval) : bool :=
  match v with
  | PList _ | PDict _ => false
  | _ => true
  end.

(** The feed elements the [for] loop handles without an exception: the
    mappings whose mint is falsy or hashable. *)
Definition keyable (token : pyval) : bool :=
  match token with
  | PDict d =>
      let token_mint := dict_get d (u "mint") (PStr []) in
      negb (truthy token_mint) || hashable token_mint
  | _ => false
  end.

(** The events of a batch that posts the given texts: each POST is
    followed by the 2-second pause. *)
Definition paced (texts : list str) : list event :=
  flat_map (fun text => [Post text; Sleep 2]) texts.

(** The pauses that end a round: the steady one and the backoff. *)
Definition round_pauses (evs : list event) : list Z :=
  omap (fun ev => match ev with
                  | Sleep secs => if (secs =? 30) || (secs =? 60) then Some secs else None
                  | Post _ => None
                  end) evs.

(** Whether a computation returned rather than raised. *)
Definition returned {A} (r : result A) : bool :=
  match r with
  | Ok _ => true
  | Raise _ => false
  end.

(** The messages of the records of a batch, the record at position [k]
    first, each formatted at the time its position is reached. *)
Fixpoint batch_messages `{Runtime} (inp : round_input) (k : nat)
  (tokens : list pyval) : list str :=
  match tokens with
  | [] => []
  | token :: rest =>
      format_token_message (now_at inp k) token :: batch_messages inp (S k) rest
  end.

(** * Properties *)

(** ** Running the monitor's computations *)

Lemma send_telegram_message_run o message st :
  send_telegram_message o message st = (Ok tt, st, [Post message]).
Proof.
  unfold send_telegram_message, mbind, emit, lift, try_except.
  destruct o as [e | status [txt | e]]; simpl; try reflexivity;
    destruct (status =? 200); reflexivity.
Qed.

Lemma for_tokens_cons `{Runtime} inp k token rest st :
  for_tokens inp k (token :: rest) st =
  match handle_token inp k token st with
  | (Ok _, st1, ev1) =>
      let '(r, st2, ev2) := for_tokens inp (S k) rest st1 in (r, st2, ev1 ++ ev2)
  | (Raise e, st1, ev1) => (Raise e, st1, ev1)
  end.
Proof. reflexivity. Qed.

(** [handle_token] in one piece: what it returns, the state it leaves and
    the events it emits. *)
Lemma handle_token_eq `{Runtime} inp k token st :
  handle_token inp k token st =
  match py_get token (u "mint") (PStr []) with
  | Raise e => (Raise e, st, [])
  | Ok token_mint =>
      if truthy token_mint then
        match hash_key token_mint with
        | Raise e => (Raise e, st, [])
        | Ok key =>
            if bool_decide (key ∉ seen_tokens st) then
              (Ok tt, {| seen_tokens := {[key]} ∪ seen_tokens st |},
               [Post (format_token_message (now_at inp k) token); Sleep 2])
            else (Ok tt, st, [])
        end
      else (Ok tt, st, [])
  end.
Proof.
  unfold handle_token, not_in_seen, mbind, lift, get_seen, ret, seen_add, emit.
  destruct (py_get token (u "mint") (PStr [])) as [mint | e]; [| reflexivity].
  destruct (truthy mint); [| reflexivity].
  destruct (hash_key mint) as [key | e]; [| reflexivity].
  cbn -[send_telegram_message].
  destruct (bool_decide (key ∉ seen_tokens st)); [| reflexivity].
  rewrite send_telegram_message_run. reflexivity.
Qed.

(** The outcome of a POST does not change what [handle_token] does. *)
Lemma handle_token_post `{Runtime} inp post k token st :
  handle_token inp k token st =
  handle_token {| feed := feed inp; now_at := now_at inp; post_at := post |} k token st.
Proof. rewrite !handle_token_eq. reflexivity. Qed.

Lemma for_tokens_post `{Runtime} inp post tokens : forall k st,
  for_tokens inp k tokens st =
  for_tokens {| feed := feed inp; now_at := now_at inp; post_at := post |} k tokens st.
Proof.
  induction tokens as [| token rest IH]; intros k st; [reflexivity |].
  rewrite !for_tokens_cons, <- handle_token_post.
  destruct (handle_token inp k token st) as [[[[] | e] st1] ev1]; [| reflexivity].
  rewrite <- IH. reflexivity.
Qed.

Lemma monitor_round_post `{Runtime} inp post st :
  monitor_round inp st =
  monitor_round {| feed := feed inp; now_at := now_at inp; post_at := post |} st.
Proof.
  unfold monitor_round, mtry, monitor_round_body, mbind, lift. simpl.
  destruct (get_new_tokens (feed inp)) as [tokens | e]; [| reflexivity].
  destruct (truthy tokens); [| reflexivity].
  destruct (py_iter tokens) as [items | e]; [| reflexivity].
  rewrite <- for_tokens_post. reflexivity.
Qed.

(** ** The feed example *)

(** C1. One round over the feed response [{"mint": "A"}, {"mint": "B"},
    {"mint": "A"}], started with an empty seen set, sends exactly two
    notifications, the one for A and then the one for B; a second round over
    the same response sends none. This holds whatever the clock reads and
    whatever the POST requests answer. *)
Theorem C1_feed_ABA_two_then_none `{Runtime}
  (now now' : nat -> str) (post post' : nat -> post_outcome) :
  let first :=
    {| feed := Response 200 (BodyJson feed_ABA); now_at := now; post_at := post |} in
  let second :=
    {| feed := Response 200 (BodyJson feed_ABA); now_at := now'; post_at := post' |} in
  let st1 := {| seen_tokens := {[HStr (u "A"); HStr (u "B")]} |} in
  monitor_round first init =
    (Ok tt, st1,
     [Post (message_for (u "A") (now 0%nat)); Sleep 2;
      Post (message_for (u "B") (now 1%nat)); Sleep 2; Sleep 30])
  /\ posts [Post (message_for (u "A") (now 0%nat)); Sleep 2;
            Post (message_for (u "B") (now 1%nat)); Sleep 2; Sleep 30]
     = [message_for (u "A") (now 0%nat); message_for (u "B") (now 1%nat)]
  /\ monitor_round second st1 = (Ok tt, st1, [Sleep 30])
  /\ posts [Sleep 30] = [].
Proof.
  intros first second st1. split; [| split; [reflexivity | split; [| reflexivity]]].
  - rewrite (monitor_round_post first (fun _ => PostFailed TimeoutError)).
    vm_compute. reflexivity.
  - rewrite (monitor_round_post second (fun _ => PostFailed TimeoutError)).
    vm_compute. reflexivity.
Qed.

(** ** Digits *)

Lemma is_digit_digit d : 0 <= d <= 9 -> is_digit (digit d).
Proof. unfold is_digit, digit. lia. Qed.

Lemma uint_chars_digits d : Forall is_digit (uint_chars d).
Proof.
  induction d; simpl; constructor; try assumption; apply is_digit_digit; lia.
Qed.

Lemma dec_digits n : Forall is_digit (dec n).
Proof. apply uint_chars_digits. Qed.

Lemma dec_nonempty n : dec n <> [].
Proof.
  unfold dec. destruct (Z.to_N n) as [| p]; [discriminate |].
  pose proof (DecimalPos.Unsigned.to_uint_nonnil p) as Hnil. simpl.
  destruct (Pos.to_uint p); [congruence | discriminate ..].
Qed.

Lemma frac_digits_length p : forall n, length (frac_digits p n) = p.
Proof.
  induction p as [| p IH]; intros n; [reflexivity |].
  simpl. rewrite length_app, IH. simpl. lia.
Qed.

Lemma frac_digits_digits p : forall n, Forall is_digit (frac_digits p n).
Proof.
  induction p as [| p IH]; intros n; [constructor |].
  simpl. apply Forall_app. split; [apply IH |].
  constructor; [| constructor]. apply is_digit_digit.
  pose proof (Z.mod_pos_bound n 10). lia.
Qed.

(** Grouping digits by three yields a thousands-grouped number. *)
Lemma commas_rev_grouped n : forall ds,
  (length ds <= n)%nat -> ds <> [] -> Forall is_digit ds ->
  grouped_int (rev (commas_rev ds)).
Proof.
  induction n as [n IH] using lt_wf_ind. intros ds Hlen Hne Hds.
  destruct ds as [| a [| b [| c [| d r]]]]; try congruence.
  - apply grouped_head; [simpl; lia | exact Hds].
  - apply grouped_head; [simpl; lia | apply Forall_rev; exact Hds].
  - apply grouped_head; [simpl; lia | apply Forall_rev; exact Hds].
  - change (commas_rev (a :: b :: c :: d :: r))
      with (a :: b :: c :: 44%N :: commas_rev (d :: r)).
    inversion Hds as [| ? ? Ha Hds1]; subst.
    inversion Hds1 as [| ? ? Hb Hds2]; subst.
    inversion Hds2 as [| ? ? Hc Hds3]; subst.
    replace (rev (a :: b :: c :: 44%N :: commas_rev (d :: r)))
      with (rev (commas_rev (d :: r)) ++ [44%N; c; b; a])
      by (simpl; rewrite <- !app_assoc; reflexivity).
    apply grouped_more; try assumption.
    apply (IH (length (d :: r))); [simpl in *; lia | lia | discriminate | exact Hds3].
Qed.

Lemma group_thousands_grouped ds :
  ds <> [] -> Forall is_digit ds -> grouped_int (group_thousands ds).
Proof.
  intros Hne Hds. unfold group_thousands.
  apply (commas_rev_grouped (length (rev ds))); [lia | | apply Forall_rev; exact Hds].
  intros Hrev. apply Hne. apply (f_equal (@rev N)) in Hrev.
  rewrite rev_involutive in Hrev. exact Hrev.
Qed.

Lemma sign_str_sign s : is_sign (sign_str s).
Proof. destruct s; [right | left]; reflexivity. Qed.

(** A finite float printed with [,.2f] is a thousands-grouped number with
    two decimals behind an optional sign. *)
Lemma format_float_f_grouped f :
  is_finite f = true -> grouped_currency_2dp (u "$" ++ format_float_f true 2 f).
Proof.
  intros Hfin.
  assert (Hfix : forall sg n,
    grouped_currency_2dp (u "$" ++ sign_str sg ++ fixed_digits true 2 n)).
  { intros sg n. unfold fixed_digits.
    pose proof (frac_digits_length 2 (n mod 10 ^ Z.of_nat 2)) as Hlen.
    pose proof (frac_digits_digits 2 (n mod 10 ^ Z.of_nat 2)) as Hdig.
    destruct (frac_digits 2 (n mod 10 ^ Z.of_nat 2)) as [| a [| b [| c r]]];
      try discriminate Hlen.
    inversion Hdig as [| ? ? Ha Hdig1]; subst.
    inversion Hdig1 as [| ? ? Hb _]; subst.
    exists (sign_str sg), (group_thousands (dec (n / 10 ^ Z.of_nat 2))), a, b.
    split; [reflexivity |]. split; [apply sign_str_sign |].
    split; [| split; assumption].
    apply group_thousands_grouped; [apply dec_nonempty | apply dec_digits]. }
  destruct f as [sg | sg | | sg m e]; try discriminate Hfin; apply Hfix.
Qed.

(** A finite float printed with [.8f] has eight decimals and no grouping. *)
Lemma format_float_f_fixed p f :
  is_finite f = true -> currency_dp p (u "$" ++ format_float_f false p f).
Proof.
  intros Hfin.
  assert (Hfix : forall sg n,
    currency_dp p (u "$" ++ sign_str sg ++ fixed_digits false p n)).
  { intros sg n. unfold fixed_digits.
    exists (sign_str sg), (dec (n / 10 ^ Z.of_nat p)),
      (frac_digits p (n mod 10 ^ Z.of_nat p)).
    split; [reflexivity |]. split; [apply sign_str_sign |].
    split; [apply dec_nonempty |]. split; [apply dec_digits |].
    split; [apply frac_digits_digits | apply frac_digits_length]. }
  destruct f as [sg | sg | | sg m e]; try discriminate Hfin; apply Hfix.
Qed.

(** ** Conversion of ints to floats *)

Lemma shr_1_nonneg mrs : 0 <= shr_m mrs -> 0 <= shr_m (shr_1 mrs).
Proof.
  destruct mrs as [m r sb]. simpl.
  destruct m as [| [p | p |] | p]; simpl; lia.
Qed.

Lemma iter_pos_shr_1_nonneg p : forall mrs,
  0 <= shr_m mrs -> 0 <= shr_m (SpecFloat.iter_pos shr_1 p mrs).
Proof.
  induction p as [p IH | p IH |]; intros mrs Hm; simpl.
  - apply IH, IH, shr_1_nonneg, Hm.
  - apply IH, IH, Hm.
  - apply shr_1_nonneg, Hm.
Qed.

Lemma shr_fexp_nonneg prec emax m e l :
  0 <= m -> 0 <= shr_m (fst (shr_fexp prec emax m e l)).
Proof.
  intros Hm. unfold shr_fexp, shr.
  assert (H0 : 0 <= shr_m (shr_record_of_loc m l))
    by (destruct l as [| []]; exact Hm).
  destruct (fexp prec emax (Zdigits2 m + e) - e); simpl;
    [exact H0 | apply iter_pos_shr_1_nonneg, H0 | exact H0].
Qed.

Lemma binary_round_aux_not_nan prec emax sx mx ex lx :
  0 <= mx -> binary_round_aux prec emax sx mx ex lx <> S754_nan.
Proof.
  intros Hm. unfold binary_round_aux.
  pose proof (shr_fexp_nonneg prec emax mx ex lx Hm) as H1.
  destruct (shr_fexp prec emax mx ex lx) as [mrs1 e1]. simpl in H1.
  assert (Hr : 0 <= round_nearest_even (shr_m mrs1) (loc_of_shr_record mrs1)).
  { unfold round_nearest_even.
    destruct (loc_of_shr_record mrs1) as [| []]; try lia.
    destruct (Z.even (shr_m mrs1)); lia. }
  pose proof (shr_fexp_nonneg prec emax _ e1 loc_Exact Hr) as H2.
  destruct (shr_fexp prec emax _ e1 loc_Exact) as [mrs2 e2]. simpl in H2.
  destruct (shr_m mrs2); [discriminate | | lia].
  destruct (e2 <=? emax - prec); discriminate.
Qed.

(** An int that converts to a float converts to a finite one. *)
Lemma float_of_int_finite z f : float_of_int z = Ok f -> is_finite f = true.
Proof.
  unfold float_of_int, binary_normalize, binary_round.
  destruct z as [| m | m].
  - intros [= <-]. reflexivity.
  - destruct (shl_align m 0 (fexp 53 1024 (Z.pos (digits2_pos m) + 0))) as [mz ez].
    pose proof (binary_round_aux_not_nan 53 1024 false (Z.pos mz) ez loc_Exact
                  ltac:(lia)) as Hnan.
    destruct (binary_round_aux 53 1024 false (Z.pos mz) ez loc_Exact);
      intros [= <-]; try reflexivity; congruence.
  - destruct (shl_align m 0 (fexp 53 1024 (Z.pos (digits2_pos m) + 0))) as [mz ez].
    pose proof (binary_round_aux_not_nan 53 1024 true (Z.pos mz) ez loc_Exact
                  ltac:(lia)) as Hnan.
    destruct (binary_round_aux 53 1024 true (Z.pos mz) ez loc_Exact);
      intros [= <-]; try reflexivity; congruence.
Qed.

(** ** The formatter *)

Lemma format_token_message_body_dict `{Runtime} now d :
  format_token_message_body now (PDict d) =
  (market_cap_formatted <-
     format_market_cap (dict_get d (u "usd_market_cap") (PInt 0)) ;;
   price_formatted <- format_price (dict_get d (u "price_usd") (PInt 0)) ;;
   description_head <-
     py_slice_to 200
       (dict_get d (u "description") (PStr (u "No description available"))) ;;
   description_len <-
     py_len (dict_get d (u "description") (PStr (u "No description available"))) ;;
   Ok (message_template
         (py_str (dict_get d (u "name") (PStr (u "Unknown"))))
         (py_str (dict_get d (u "symbol") (PStr (u "N/A"))))
         (py_str (dict_get d (u "mint") (PStr (u "N/A"))))
         (py_str (dict_get d (u "creator") (PStr (u "Unknown"))))
         price_formatted market_cap_formatted (py_str description_head)
         (if 200 <? description_len then u "..." else [])
       ++ social_links (dict_get d (u "website") (PStr []))
            (dict_get d (u "twitter") (PStr []))
            (dict_get d (u "telegram") (PStr []))
       ++ detected_at now))%py.
Proof. reflexivity. Qed.

Lemma message_template_segment name symbol mint creator pf mf head ellipsis :
  message_template name symbol mint creator pf mf head ellipsis =
  message_template name symbol mint creator pf mf (head ++ ellipsis) [].
Proof.
  unfold message_template. rewrite <- (app_assoc head ellipsis), app_nil_l.
  reflexivity.
Qed.

Lemma description_segment_eq (description : str) :
  take 200 description
    ++ (if 200 <? Z.of_nat (length description) then u "..." else [])
  = description_segment description.
Proof.
  unfold description_segment.
  destruct (Nat.ltb_spec 200 (length description)) as [Hlong | Hshort].
  - replace (200 <? Z.of_nat (length description)) with true
      by (symmetry; apply Z.ltb_lt; lia). reflexivity.
  - replace (200 <? Z.of_nat (length description)) with false
      by (symmetry; apply Z.ltb_ge; lia).
    rewrite app_nil_r. apply firstn_all2. exact Hshort.
Qed.

(** The normal message: the market cap and the price format and the
    description is a string. *)
Lemma format_token_message_text `{Runtime} now d description pf mf :
  dict_get d (u "description") (PStr (u "No description available"))
    = PStr description ->
  format_market_cap (dict_get d (u "usd_market_cap") (PInt 0)) = Ok mf ->
  format_price (dict_get d (u "price_usd") (PInt 0)) = Ok pf ->
  format_token_message now (PDict d)
    = rendered_message now d pf mf (description_segment description).
Proof.
  intros Hdesc Hmf Hpf. unfold format_token_message.
  rewrite format_token_message_body_dict, Hmf, Hpf, Hdesc.
  unfold rendered_message. cbn [bind py_slice_to py_len py_str].
  rewrite message_template_segment, description_segment_eq. reflexivity.
Qed.

(** A failing market cap is the first failure of the formatter. *)
Lemma format_token_message_market_cap_error `{Runtime} now d e :
  format_market_cap (dict_get d (u "usd_market_cap") (PInt 0)) = Raise e ->
  format_token_message_body now (PDict d) = Raise e.
Proof. intros Hmc. rewrite format_token_message_body_dict, Hmc. reflexivity. Qed.

Lemma format_token_message_price_error `{Runtime} now d mf e :
  format_market_cap (dict_get d (u "usd_market_cap") (PInt 0)) = Ok mf ->
  format_price (dict_get d (u "price_usd") (PInt 0)) = Raise e ->
  format_token_message_body now (PDict d) = Raise e.
Proof.
  intros Hmc Hp. rewrite format_token_message_body_dict, Hmc, Hp. reflexivity.
Qed.

Lemma dict_get_present d key dflt v :
  dict_lookup d key = Some v -> dict_get d key dflt = v.
Proof. unfold dict_get. intros ->. reflexivity. Qed.

Lemma dict_get_absent d key dflt :
  dict_lookup d key = None -> dict_get d key dflt = dflt.
Proof. unfold dict_get. intros ->. reflexivity. Qed.

Lemma format_market_cap_truthy market_cap f :
  truthy market_cap = true -> float_to_format true 2 market_cap = Ok f ->
  format_market_cap market_cap = Ok (u "$" ++ format_float_f true 2 f).
Proof.
  intros Ht Hf. unfold format_market_cap, py_format_f. rewrite Ht, Hf. reflexivity.
Qed.

Lemma format_market_cap_falsy market_cap :
  truthy market_cap = false -> format_market_cap market_cap = Ok (u "N/A").
Proof. intros Ht. unfold format_market_cap. rewrite Ht. reflexivity. Qed.

Lemma format_price_truthy `{Runtime} price f :
  truthy price = true -> py_float price = Ok f ->
  format_price price = Ok (u "$" ++ format_float_f false 8 f).
Proof. intros Ht Hf. unfold format_price. rewrite Ht, Hf. reflexivity. Qed.

Lemma format_price_falsy `{Runtime} price :
  truthy price = false -> format_price price = Ok (u "N/A").
Proof. intros Ht. unfold format_price. rewrite Ht. reflexivity. Qed.

(** An int market cap within the range of the floats is always rendered as
    a thousands-grouped currency string. *)
Lemma format_market_cap_int z f :
  z <> 0 -> float_of_int z = Ok f ->
  exists s, format_market_cap (PInt z) = Ok s /\ grouped_currency_2dp s.
Proof.
  intros Hz Hf. exists (u "$" ++ format_float_f true 2 f). split.
  - apply format_market_cap_truthy; [| exact Hf].
    simpl. destruct (Z.eqb_spec z 0); [contradiction | reflexivity].
  - apply format_float_f_grouped, (float_of_int_finite z), Hf.
Qed.

(** ** Reading the digits back *)

Lemma rendered_message_lines `{Runtime} now d pf mf description_text :
  rendered_message now d pf mf description_text
  = listing_of now d pf mf description_text.
Proof.
  unfold rendered_message, listing_of, message_template, social_links, link_lines,
    detected_at, closing_lines, listing_lines, nl.
  destruct (truthy (dict_get d (u "website") (PStr [])));
    destruct (truthy (dict_get d (u "twitter") (PStr [])));
    destruct (truthy (dict_get d (u "telegram") (PStr [])));
    cbn [join_lines flat_map app];
    repeat (progress (cbn [app]; rewrite <- ?app_assoc));
    rewrite ?app_nil_r; reflexivity.
Qed.

Lemma fold_digits_acc s : forall acc,
  fold_left (fun acc c => 10 * acc + (Z.of_N c - 48)) s acc
  = acc * 10 ^ Z.of_nat (length s) + digits_value s.
Proof.
  unfold digits_value.
  induction s as [| c r IH]; intros acc; [simpl; lia |].
  cbn [fold_left length]. rewrite IH, (IH (10 * 0 + (Z.of_N c - 48))).
  rewrite Nat2Z.inj_succ, Z.pow_succ_r by lia. ring.
Qed.

Lemma digits_value_app a b :
  digits_value (a ++ b) = digits_value a * 10 ^ Z.of_nat (length b) + digits_value b.
Proof.
  unfold digits_value at 1. rewrite fold_left_app.
  fold (digits_value a). apply fold_digits_acc.
Qed.

Lemma of_uint_acc_value d : forall acc,
  Z.pos (Pos.of_uint_acc d acc)
  = fold_left (fun acc c => 10 * acc + (Z.of_N c - 48)) (uint_chars d) (Z.pos acc).
Proof.
  induction d; intros acc; cbn [Pos.of_uint_acc uint_chars fold_left];
    [reflexivity | rewrite IHd; f_equal; unfold digit; simpl; lia ..].
Qed.

Lemma of_uint_value d : Z.of_N (Pos.of_uint d) = digits_value (uint_chars d).
Proof.
  induction d; cbn [Pos.of_uint uint_chars];
    [reflexivity | exact IHd
     | simpl Z.of_N; rewrite of_uint_acc_value; reflexivity ..].
Qed.

Lemma digits_value_dec n : 0 <= n -> digits_value (dec n) = n.
Proof.
  intros Hn. unfold dec. rewrite <- of_uint_value.
  change (Pos.of_uint (N.to_uint (Z.to_N n))) with (N.of_uint (N.to_uint (Z.to_N n))).
  rewrite DecimalN.Unsigned.of_to. apply Z2N.id, Hn.
Qed.

Lemma ungroup_digits ds : Forall is_digit ds -> ungroup ds = ds.
Proof.
  induction 1 as [| c r Hc _ IH]; [reflexivity |].
  unfold ungroup in *. cbn [List.filter].
  replace (c =? 44)%N with false
    by (symmetry; apply N.eqb_neq; unfold is_digit in Hc; lia).
  cbn [negb]. rewrite IH. reflexivity.
Qed.

Lemma ungroup_commas_rev n : forall ds,
  (length ds <= n)%nat -> Forall is_digit ds -> ungroup (commas_rev ds) = ds.
Proof.
  induction n as [n IH] using lt_wf_ind. intros ds Hlen Hds.
  destruct ds as [| a [| b [| c [| d r]]]]; try (apply ungroup_digits; exact Hds).
  change (commas_rev (a :: b :: c :: d :: r))
    with (a :: b :: c :: 44%N :: commas_rev (d :: r)).
  inversion Hds as [| ? ? Ha Hds1]; subst.
  inversion Hds1 as [| ? ? Hb Hds2]; subst.
  inversion Hds2 as [| ? ? Hc Hds3]; subst.
  assert (Hrest : ungroup (commas_rev (d :: r)) = d :: r)
    by (apply (IH (length (d :: r))); [simpl in *; lia | lia | exact Hds3]).
  unfold ungroup in *. cbn [List.filter].
  replace (a =? 44)%N with false
    by (symmetry; apply N.eqb_neq; unfold is_digit in Ha; lia).
  replace (b =? 44)%N with false
    by (symmetry; apply N.eqb_neq; unfold is_digit in Hb; lia).
  replace (c =? 44)%N with false
    by (symmetry; apply N.eqb_neq; unfold is_digit in Hc; lia).
  cbn [negb N.eqb Pos.eqb]. rewrite Hrest. reflexivity.
Qed.

Lemma ungroup_group_thousands ds :
  Forall is_digit ds -> ungroup (group_thousands ds) = ds.
Proof.
  intros Hds. unfold group_thousands, ungroup. rewrite List.filter_rev.
  fold (ungroup (commas_rev (rev ds))).
  rewrite (ungroup_commas_rev (length (rev ds))); [apply rev_involutive | lia |].
  apply Forall_rev. exact Hds.
Qed.

Lemma digits_value_digit k : 0 <= k <= 9 -> digits_value [digit k] = k.
Proof.
  intros Hk. unfold digits_value, digit. cbn [fold_left]. rewrite Z2N.id; lia.
Qed.

Lemma digits_value_frac_digits p : forall x,
  0 <= x -> digits_value (frac_digits p x) = x mod 10 ^ Z.of_nat p.
Proof.
  induction p as [| p IH]; intros x Hx.
  - simpl. rewrite Z.mod_1_r. reflexivity.
  - cbn [frac_digits]. rewrite digits_value_app, IH by (apply Z.div_pos; lia).
    rewrite digits_value_digit by (pose proof (Z.mod_pos_bound x 10); lia).
    rewrite Nat2Z.inj_succ, Z.pow_succ_r by lia.
    assert (Hten : 0 < 10 ^ Z.of_nat p) by (apply Z.pow_pos_nonneg; lia).
    rewrite (Z.rem_mul_r x 10 (10 ^ Z.of_nat p)) by lia.
    cbn [length]. change (10 ^ Z.of_nat 1) with 10. ring.
Qed.

Lemma round_half_even_nearest a b :
  0 <= a -> 0 < b ->
  0 <= round_half_even a b
  /\ 2 * Z.abs (round_half_even a b * b - a) <= b
  /\ (2 * Z.abs (round_half_even a b * b - a) = b ->
      Z.even (round_half_even a b) = true).
Proof.
  intros Ha Hb. unfold round_half_even.
  pose proof (Z.div_mod a b ltac:(lia)) as Hdm.
  pose proof (Z.mod_pos_bound a b Hb) as Hr.
  pose proof (Z.div_pos a b Ha Hb) as Hq.
  set (q := a / b) in *. set (r := a mod b) in *.
  destruct (Z.compare_spec (2 * r) b) as [Heq | Hlt | Hgt].
  - destruct (Z.even q) eqn:Heven.
    + replace (q * b - a) with (- r) by lia.
      repeat split; [lia | lia | intros _; exact Heven].
    + replace ((q + 1) * b - a) with (b - r) by lia.
      repeat split; [lia | lia |]. intros _.
      replace (q + 1) with (Z.succ q) by lia.
      rewrite Z.even_succ, <- Z.negb_even, Heven. reflexivity.
  - replace (q * b - a) with (- r) by lia. repeat split; lia.
  - replace ((q + 1) * b - a) with (b - r) by lia. repeat split; lia.
Qed.

Lemma scaled_nearest p sg m e :
  0 <= scaled p m e /\ nearest_scaled p (S754_finite sg m e) (scaled p m e).
Proof.
  unfold scaled, nearest_scaled.
  assert (Hten : 0 < 10 ^ Z.of_nat p) by (apply Z.pow_pos_nonneg; lia).
  destruct (Z.leb_spec 0 e) as [Hge | Hlt].
  - split; [| reflexivity].
    assert (0 < 2 ^ e) by (apply Z.pow_pos_nonneg; lia). nia.
  - assert (Hb : 0 < 2 ^ (- e)) by (apply Z.pow_pos_nonneg; lia).
    destruct (round_half_even_nearest (Z.pos m * 10 ^ Z.of_nat p) (2 ^ (- e))
                ltac:(nia) Hb) as (Hnn & Hnear & Htie).
    split; [exact Hnn | split; assumption].
Qed.

(** The digits of [fixed_digits] denote the number they were made from. *)
Lemma fixed_digits_value grouped p n :
  0 <= n ->
  exists ip fr,
    fixed_digits grouped p n = ip ++ u "." ++ fr
    /\ (if grouped then grouped_int ip else ip <> [] /\ Forall is_digit ip)
    /\ Forall is_digit fr /\ length fr = p
    /\ digits_value (ungroup ip) * 10 ^ Z.of_nat p + digits_value fr = n.
Proof.
  intros Hn.
  assert (Hten : 0 < 10 ^ Z.of_nat p) by (apply Z.pow_pos_nonneg; lia).
  assert (Hq : 0 <= n / 10 ^ Z.of_nat p) by (apply Z.div_pos; lia).
  exists (if grouped then group_thousands (dec (n / 10 ^ Z.of_nat p))
          else dec (n / 10 ^ Z.of_nat p)),
    (frac_digits p (n mod 10 ^ Z.of_nat p)).
  split; [reflexivity |]. split.
  { destruct grouped.
    - apply group_thousands_grouped; [apply dec_nonempty | apply dec_digits].
    - split; [apply dec_nonempty | apply dec_digits]. }
  split; [apply frac_digits_digits |]. split; [apply frac_digits_length |].
  assert (Hip : ungroup (if grouped then group_thousands (dec (n / 10 ^ Z.of_nat p))
                         else dec (n / 10 ^ Z.of_nat p))
                = dec (n / 10 ^ Z.of_nat p)).
  { destruct grouped;
      [apply ungroup_group_thousands | apply ungroup_digits]; apply dec_digits. }
  rewrite Hip, digits_value_dec by exact Hq.
  rewrite digits_value_frac_digits by (apply Z.mod_pos_bound; lia).
  rewrite Z.mod_mod by lia.
  pose proof (Z.div_mod n (10 ^ Z.of_nat p) ltac:(lia)). lia.
Qed.

(** The currency text of a finite float denotes the float, rounded. *)
Lemma format_float_f_prints grouped p f :
  is_finite f = true -> prints_as grouped p f (u "$" ++ format_float_f grouped p f).
Proof.
  intros Hfin. unfold prints_as.
  destruct f as [sg | sg | | sg m e]; try discriminate Hfin.
  - destruct (fixed_digits_value grouped p 0 ltac:(lia))
      as (ip & fr & Htext & Hip & Hfr & Hlen & Hval).
    exists ip, fr. cbn [format_float_f float_negative]. rewrite Htext.
    split; [reflexivity |]. repeat (split; [assumption |]). exact Hval.
  - destruct (scaled_nearest p sg m e) as (Hnn & Hnear).
    destruct (fixed_digits_value grouped p (scaled p m e) Hnn)
      as (ip & fr & Htext & Hip & Hfr & Hlen & Hval).
    exists ip, fr. cbn [format_float_f float_negative]. rewrite Htext.
    split; [reflexivity |]. repeat (split; [assumption |]).
    rewrite Hval. exact Hnear.
Qed.

Lemma inf_text_not_grouped : ~ grouped_currency_2dp (u "$inf").
Proof.
  intros (sign & g & a & b & Heq & _ & _ & _ & Hb).
  assert (Hlast : last (u "$" ++ sign ++ g ++ u "." ++ [a; b]) = Some b).
  { change [a; b] with ([a] ++ [b]). rewrite !app_assoc. apply last_snoc. }
  rewrite <- Heq in Hlast. vm_compute in Hlast.
  injection Hlast as <-. unfold is_digit in Hb. lia.
Qed.

(** C4, as stated, fails on truthy market caps that are not finite numbers:
    the float [inf] (the JSON literal [1e400]) is rendered as ["$inf"], which
    is no thousands-grouped 2-decimal string, and the string ["abc"] makes
    the formatter return its error text, with no market-cap field at all. *)
Lemma C4_counterexample_market_cap_not_finite :
  truthy (dict_get token_infinite_cap (u "usd_market_cap") (PInt 0)) = true
  /\ @format_token_message sample_runtime now0 (PDict token_infinite_cap)
     = @rendered_message sample_runtime now0 token_infinite_cap
         (u "N/A") (u "$inf") (u "No description available")
  /\ ~ grouped_currency_2dp (u "$inf")
  /\ truthy (dict_get token_text_cap (u "usd_market_cap") (PInt 0)) = true
  /\ @format_token_message sample_runtime now0 (PDict token_text_cap)
     = u "Error formatting token data: Unknown format code 'f' for object of type 'str'".
Proof.
  split; [reflexivity |]. split; [vm_compute; reflexivity |].
  split; [exact inf_text_not_grouped |]. split; [reflexivity |].
  vm_compute; reflexivity.
Qed.

(** C4, amended. For every record whose description is a string (or
    absent), whose [usd_market_cap] is falsy or a number with a finite float
    value, and whose [price_usd] is falsy or converted by [float] to a finite
    value, the message is the listing, line by line, and in it the
    market-cap line holds ["N/A"] when [usd_market_cap] is falsy and
    otherwise the currency text of its value: a dollar sign, the
    thousands-grouped integer part and 2 decimals, denoting the value
    rounded to the nearest hundredth; the price line holds ["N/A"] when
    [price_usd] is falsy and otherwise the currency text of its value with 8
    decimals and no grouping. *)
Theorem C4_market_cap_and_price_fields `{Runtime} now d description :
  dict_get d (u "description") (PStr (u "No description available"))
    = PStr description ->
  (truthy (dict_get d (u "usd_market_cap") (PInt 0)) = true ->
   exists f, float_to_format true 2 (dict_get d (u "usd_market_cap") (PInt 0)) = Ok f
             /\ is_finite f = true) ->
  (truthy (dict_get d (u "price_usd") (PInt 0)) = true ->
   exists f, py_float (dict_get d (u "price_usd") (PInt 0)) = Ok f
             /\ is_finite f = true) ->
  exists price_text market_cap_text,
    format_token_message now (PDict d)
      = join_lines
          (listing_lines
             (py_str (dict_get d (u "name") (PStr (u "Unknown"))))
             (py_str (dict_get d (u "symbol") (PStr (u "N/A"))))
             (py_str (dict_get d (u "mint") (PStr (u "N/A"))))
             (py_str (dict_get d (u "creator") (PStr (u "Unknown"))))
             price_text market_cap_text (description_segment description)
           ++ link_lines d ++ closing_lines now)
    /\ (if truthy (dict_get d (u "usd_market_cap") (PInt 0))
        then exists f,
               float_to_format true 2 (dict_get d (u "usd_market_cap") (PInt 0))
                 = Ok f
               /\ prints_as true 2 f market_cap_text
        else market_cap_text = u "N/A")
    /\ (if truthy (dict_get d (u "price_usd") (PInt 0))
        then exists f,
               py_float (dict_get d (u "price_usd") (PInt 0)) = Ok f
               /\ prints_as false 8 f price_text
        else price_text = u "N/A").
Proof.
  intros Hdesc Hcap Hprice.
  assert (Hmf : exists mf,
    format_market_cap (dict_get d (u "usd_market_cap") (PInt 0)) = Ok mf
    /\ if truthy (dict_get d (u "usd_market_cap") (PInt 0))
       then exists f,
              float_to_format true 2 (dict_get d (u "usd_market_cap") (PInt 0))
                = Ok f
              /\ prints_as true 2 f mf
       else mf = u "N/A").
  { destruct (truthy (dict_get d (u "usd_market_cap") (PInt 0))) eqn:Ht.
    - destruct (Hcap eq_refl) as (f & Hf & Hfin).
      exists (u "$" ++ format_float_f true 2 f).
      split; [apply format_market_cap_truthy; assumption |].
      exists f. split; [exact Hf | apply format_float_f_prints; exact Hfin].
    - exists (u "N/A"). split; [apply format_market_cap_falsy; exact Ht | reflexivity]. }
  assert (Hpf : exists pf,
    format_price (dict_get d (u "price_usd") (PInt 0)) = Ok pf
    /\ if truthy (dict_get d (u "price_usd") (PInt 0))
       then exists f,
              py_float (dict_get d (u "price_usd") (PInt 0)) = Ok f
              /\ prints_as false 8 f pf
       else pf = u "N/A").
  { destruct (truthy (dict_get d (u "price_usd") (PInt 0))) eqn:Ht.
    - destruct (Hprice eq_refl) as (f & Hf & Hfin).
      exists (u "$" ++ format_float_f false 8 f).
      split; [apply format_price_truthy; assumption |].
      exists f. split; [exact Hf | apply format_float_f_prints; exact Hfin].
    - exists (u "N/A"). split; [apply format_price_falsy; exact Ht | reflexivity]. }
  destruct Hmf as (mf & Hmf & Hmf_text). destruct Hpf as (pf & Hpf & Hpf_text).
  exists pf, mf. split; [| split; assumption].
  rewrite (format_token_message_text now d description pf mf Hdesc Hmf Hpf).
  apply rendered_message_lines.
Qed.

Lemma C4_market_cap_and_price_fields_witness :
  exists price_text market_cap_text,
    @format_token_message sample_runtime now0 (PDict token_priced)
      = join_lines
          (listing_lines
             (@py_str sample_runtime
                (dict_get token_priced (u "name") (PStr (u "Unknown"))))
             (@py_str sample_runtime
                (dict_get token_priced (u "symbol") (PStr (u "N/A"))))
             (@py_str sample_runtime
                (dict_get token_priced (u "mint") (PStr (u "N/A"))))
             (@py_str sample_runtime
                (dict_get token_priced (u "creator") (PStr (u "Unknown"))))
             price_text market_cap_text
             (description_segment (u "No description available"))
           ++ @link_lines sample_runtime token_priced ++ closing_lines now0)
    /\ (if truthy (dict_get token_priced (u "usd_market_cap") (PInt 0))
        then exists f,
               float_to_format true 2
                 (dict_get token_priced (u "usd_market_cap") (PInt 0)) = Ok f
               /\ prints_as true 2 f market_cap_text
        else market_cap_text = u "N/A")
    /\ (if truthy (dict_get token_priced (u "price_usd") (PInt 0))
        then exists f,
               @py_float sample_runtime
                 (dict_get token_priced (u "price_usd") (PInt 0)) = Ok f
               /\ prints_as false 8 f price_text
        else price_text = u "N/A").
Proof.
  apply (@C4_market_cap_and_price_fields sample_runtime now0 token_priced
           (u "No description available")).
  - vm_compute. reflexivity.
  - intros _. eexists. split; vm_compute; reflexivity.
  - intros _. eexists. split; vm_compute; reflexivity.
Defined.

(** The fields of the examples of the specification. *)
Example format_market_cap_1234567_5 :
  format_market_cap (PFloat (b64 2469135 (-1))) = Ok (u "$1,234,567.50")
  /\ format_market_cap (PInt 0) = Ok (u "N/A")
  /\ @format_price sample_runtime (PFloat (b64 1 (-3))) = Ok (u "$0.12500000")
  /\ @format_price sample_runtime (PInt 0) = Ok (u "N/A").
Proof. repeat split. Qed.

(** C6, as stated, fails for the records that the formatter cannot format:
    with a description of 250 characters and the market cap [10^400] the
    output is the error text, 63 characters long, which holds no description
    segment. *)
Lemma C6_counterexample_error_text :
  dict_get token_described_huge_cap (u "description")
    (PStr (u "No description available")) = PStr (replicate 250 120%N)
  /\ @format_token_message sample_runtime now0 (PDict token_described_huge_cap)
     = u "Error formatting token data: int too large to convert to float"
  /\ (length (@format_token_message sample_runtime now0
                (PDict token_described_huge_cap)) < 200)%nat.
Proof.
  split; [vm_compute; reflexivity |]. split; [vm_compute; reflexivity |].
  vm_compute. lia.
Qed.

(** C6, amended. For every record whose description is a string (or absent)
    and whose market cap and price format, the message is the listing and
    its description line is the whole description when that has at most 200
    characters, and its first 200 characters followed by the marker ["..."]
    when it is longer. *)
Theorem C6_description_truncated `{Runtime} now d description pf mf :
  dict_get d (u "description") (PStr (u "No description available"))
    = PStr description ->
  format_market_cap (dict_get d (u "usd_market_cap") (PInt 0)) = Ok mf ->
  format_price (dict_get d (u "price_usd") (PInt 0)) = Ok pf ->
  ((length description <= 200)%nat ->
   format_token_message now (PDict d)
   = join_lines
       (listing_lines
          (py_str (dict_get d (u "name") (PStr (u "Unknown"))))
          (py_str (dict_get d (u "symbol") (PStr (u "N/A"))))
          (py_str (dict_get d (u "mint") (PStr (u "N/A"))))
          (py_str (dict_get d (u "creator") (PStr (u "Unknown"))))
          pf mf description
        ++ link_lines d ++ closing_lines now))
  /\ ((200 < length description)%nat ->
      format_token_message now (PDict d)
      = join_lines
          (listing_lines
             (py_str (dict_get d (u "name") (PStr (u "Unknown"))))
             (py_str (dict_get d (u "symbol") (PStr (u "N/A"))))
             (py_str (dict_get d (u "mint") (PStr (u "N/A"))))
             (py_str (dict_get d (u "creator") (PStr (u "Unknown"))))
             pf mf (take 200 description ++ u "...")
           ++ link_lines d ++ closing_lines now)
      /\ length (take 200 description) = 200%nat).
Proof.
  intros Hdesc Hmf Hpf.
  rewrite (format_token_message_text now d description pf mf Hdesc Hmf Hpf).
  rewrite rendered_message_lines. unfold listing_of, description_segment.
  split; intros Hlen.
  - destruct (Nat.ltb_spec 200 (length description)); [lia | reflexivity].
  - destruct (Nat.ltb_spec 200 (length description)); [| lia].
    split; [reflexivity |]. rewrite length_take. lia.
Qed.

Lemma C6_description_truncated_witness :
  @format_token_message sample_runtime now0 (PDict (token_described 250))
    = join_lines
        (listing_lines (u "Unknown") (u "N/A") (u "A") (u "Unknown") (u "N/A")
           (u "N/A") (replicate 200 120%N ++ u "...")
         ++ closing_lines now0)
  /\ @format_token_message sample_runtime now0 (PDict (token_described 150))
     = join_lines
         (listing_lines (u "Unknown") (u "N/A") (u "A") (u "Unknown") (u "N/A")
            (u "N/A") (replicate 150 120%N)
          ++ closing_lines now0).
Proof.
  split.
  - pose proof (proj2 (@C6_description_truncated sample_runtime now0
      (token_described 250) (replicate 250 120%N) (u "N/A") (u "N/A")
      ltac:(vm_compute; reflexivity) ltac:(vm_compute; reflexivity)
      ltac:(vm_compute; reflexivity))) as Hlong.
    destruct Hlong as (Hw & _); [vm_compute; lia |].
    vm_compute in Hw. vm_compute. exact Hw.
  - pose proof (proj1 (@C6_description_truncated sample_runtime now0
      (token_described 150) (replicate 150 120%N) (u "N/A") (u "N/A")
      ltac:(vm_compute; reflexivity) ltac:(vm_compute; reflexivity)
      ltac:(vm_compute; reflexivity))) as Hshort.
    pose proof (Hshort ltac:(vm_compute; lia)) as Hw.
    vm_compute in Hw. vm_compute. exact Hw.
Defined.

(** C8. A truthy [usd_market_cap] that is not a number (a non-empty string,
    list or dict) makes [format_token_message] return the error text built
    from the exception that [format(market_cap, ",.2f")] raises: no
    formatted market cap and no ["N/A"]. *)
Theorem C8_market_cap_not_a_number `{Runtime} now d market_cap :
  dict_lookup d (u "usd_market_cap") = Some market_cap ->
  truthy market_cap = true ->
  is_number market_cap = false ->
  format_token_message_body now (PDict d)
    = Raise (FormatSpecError market_cap (u ",.2f"))
  /\ format_token_message now (PDict d)
     = u "Error formatting token data: "
       ++ exc_str (FormatSpecError market_cap (u ",.2f")).
Proof.
  intros Hget Ht Hnum.
  assert (Hbody : format_token_message_body now (PDict d)
                  = Raise (FormatSpecError market_cap (u ",.2f"))).
  { apply format_token_message_market_cap_error.
    rewrite (dict_get_present _ _ _ _ Hget).
    unfold format_market_cap, py_format_f. rewrite Ht.
    destruct market_cap; try discriminate Hnum; reflexivity. }
  split; [exact Hbody |]. unfold format_token_message. rewrite Hbody. reflexivity.
Qed.

Lemma C8_market_cap_not_a_number_witness :
  @format_token_message_body sample_runtime now0 (PDict token_text_cap)
    = Raise (FormatSpecError (PStr (u "abc")) (u ",.2f"))
  /\ @format_token_message sample_runtime now0 (PDict token_text_cap)
     = u "Error formatting token data: Unknown format code 'f' for object of type 'str'".
Proof.
  pose proof (@C8_market_cap_not_a_number sample_runtime now0 token_text_cap
                (PStr (u "abc")) ltac:(vm_compute; reflexivity) eq_refl eq_refl)
    as Hw.
  vm_compute in Hw. vm_compute. exact Hw.
Defined.

(** C9, as stated, fails for the records that the formatter cannot format:
    with the name [""] present and the market cap ["abc"] the output is the
    error text, in which no name is rendered. *)
Lemma C9_counterexample_error_text :
  dict_lookup token_empty_name_text_cap (u "name") = Some (PStr [])
  /\ @format_token_message sample_runtime now0 (PDict token_empty_name_text_cap)
     = u "Error formatting token data: Unknown format code 'f' for object of type 'str'".
Proof. split; vm_compute; reflexivity. Qed.

(** C9, amended. For every record whose description is a string (or absent)
    and whose market cap and price format, the message is the listing, and
    in it each placeholder (["Unknown"] for the name and the creator, ["N/A"]
    for the symbol and the mint, ["No description available"]) stands only
    where the key is absent from the record: a key that is present is
    rendered by its value, and so as the empty string when the value is the
    empty string. *)
Theorem C9_placeholder_only_when_absent `{Runtime} now d
  (name symbol mint creator : option pyval) (description : option str) pf mf :
  dict_lookup d (u "name") = name ->
  dict_lookup d (u "symbol") = symbol ->
  dict_lookup d (u "mint") = mint ->
  dict_lookup d (u "creator") = creator ->
  dict_lookup d (u "description") = PStr <$> description ->
  format_market_cap (dict_get d (u "usd_market_cap") (PInt 0)) = Ok mf ->
  format_price (dict_get d (u "price_usd") (PInt 0)) = Ok pf ->
  format_token_message now (PDict d)
    = join_lines
        (listing_lines
           (from_option py_str (u "Unknown") name)
           (from_option py_str (u "N/A") symbol)
           (from_option py_str (u "N/A") mint)
           (from_option py_str (u "Unknown") creator) pf mf
           (description_segment
              (default (u "No description available") description))
         ++ link_lines d ++ closing_lines now).
Proof.
  intros Hname Hsymbol Hmint Hcreator Hdesc Hmf Hpf.
  assert (Hd : dict_get d (u "description") (PStr (u "No description available"))
               = PStr (default (u "No description available") description)).
  { unfold dict_get. rewrite Hdesc. destruct description; reflexivity. }
  rewrite (format_token_message_text now d _ pf mf Hd Hmf Hpf).
  rewrite rendered_message_lines. unfold listing_of.
  unfold dict_get at 1 2 3 4. rewrite Hname, Hsymbol, Hmint, Hcreator.
  destruct name, symbol, mint, creator; reflexivity.
Qed.

Lemma C9_placeholder_only_when_absent_witness :
  @format_token_message sample_runtime now0 (PDict token_empty_texts)
    = join_lines
        (listing_lines [] (u "N/A") (u "A") (u "Unknown") (u "N/A") (u "N/A") []
         ++ closing_lines now0).
Proof.
  pose proof (@C9_placeholder_only_when_absent sample_runtime now0 token_empty_texts
                (Some (PStr [])) None (Some (PStr (u "A"))) None (Some [])
                (u "N/A") (u "N/A")
                ltac:(vm_compute; reflexivity) ltac:(vm_compute; reflexivity)
                ltac:(vm_compute; reflexivity) ltac:(vm_compute; reflexivity)
                ltac:(vm_compute; reflexivity) ltac:(vm_compute; reflexivity)
                ltac:(vm_compute; reflexivity)) as Hw.
  vm_compute in Hw. vm_compute. exact Hw.
Defined.

(** ** The feed client *)

(** C2, as stated, fails: a 200 body that is an object whose ["coins"] entry
    is not a list matches neither shape, and [get_new_tokens] returns that
    entry, not the empty list. *)
Lemma C2_counterexample_coins_not_a_list :
  body_shape_of (PDict [(u "coins", PInt 5)]) = NeitherShape
  /\ get_new_tokens (Response 200 (BodyJson (PDict [(u "coins", PInt 5)])))
     = Ok (PInt 5)
  /\ get_new_tokens (Response 200 (BodyJson (PDict [(u "coins", PInt 5)])))
     <> Ok (PList []).
Proof. split; [reflexivity | split; [reflexivity | discriminate]]. Qed.

(** C2, amended. For a 200 response, [get_new_tokens] returns the body when
    it is a list, the list under ["coins"] when the body is an object with a
    list there, and the empty list when the body is an object without the
    key ["coins"] or is neither a list nor an object. *)
Theorem C2_get_new_tokens_shapes (data : pyval) :
  (forall l, data = PList l ->
     get_new_tokens (Response 200 (BodyJson data)) = Ok (PList l))
  /\ (forall l, body_shape_of data = CoinsObject l ->
     get_new_tokens (Response 200 (BodyJson data)) = Ok (PList l))
  /\ (forall d, data = PDict d -> dict_lookup d (u "coins") = None ->
     get_new_tokens (Response 200 (BodyJson data)) = Ok (PList []))
  /\ (isinstance_list data = false -> isinstance_dict data = false ->
     get_new_tokens (Response 200 (BodyJson data)) = Ok (PList [])).
Proof.
  repeat split.
  - intros l ->. reflexivity.
  - intros l Hshape. destruct data as [| | | | | l' | d]; try discriminate Hshape.
    simpl in Hshape. unfold get_new_tokens. simpl. unfold dict_get.
    destruct (dict_lookup d (u "coins")) as [[| | | | | l'' |] |];
      try discriminate Hshape.
    injection Hshape as ->. reflexivity.
  - intros d -> Hnone. unfold get_new_tokens. simpl. unfold dict_get.
    rewrite Hnone. reflexivity.
  - intros Hl Hd. destruct data; try discriminate; reflexivity.
Qed.

Lemma C2_get_new_tokens_shapes_witness :
  get_new_tokens (Response 200 (BodyJson feed_ABA)) = Ok feed_ABA
  /\ get_new_tokens (Response 200 (BodyJson (PDict [(u "coins", feed_ABA)])))
     = Ok feed_ABA
  /\ get_new_tokens (Response 200 (BodyJson (PDict [(u "items", feed_ABA)])))
     = Ok (PList [])
  /\ get_new_tokens (Response 200 (BodyJson (PStr (u "maintenance")))) = Ok (PList []).
Proof.
  split; [| split; [| split]].
  - apply (proj1 (C2_get_new_tokens_shapes feed_ABA)). reflexivity.
  - apply (proj1 (proj2 (C2_get_new_tokens_shapes (PDict [(u "coins", feed_ABA)])))).
    reflexivity.
  - apply (proj1 (proj2 (proj2
      (C2_get_new_tokens_shapes (PDict [(u "items", feed_ABA)]))))
      [(u "items", feed_ABA)]); reflexivity.
  - apply (proj2 (proj2 (proj2
      (C2_get_new_tokens_shapes (PStr (u "maintenance")))))); reflexivity.
Defined.

(** C3. On every failure outcome of the feed request (the request raises, as
    on a network error or a timeout; the status is not 200; the body does
    not parse as JSON) [get_new_tokens] returns the empty list; and on every
    outcome at all it returns a value: no exception escapes it. *)
Theorem C3_get_new_tokens_failure (o : http_outcome) :
  (feed_failure o = true -> get_new_tokens o = Ok (PList []))
  /\ (exists tokens, get_new_tokens o = Ok tokens).
Proof.
  unfold get_new_tokens, try_except. split.
  - intros Hfail. destruct o as [e | status [data | e]]; simpl in *;
      try reflexivity.
    + rewrite orb_false_r in Hfail. apply negb_true_iff in Hfail.
      rewrite Hfail. reflexivity.
    + destruct (status =? 200); reflexivity.
  - destruct (get_new_tokens_body o) as [tokens | e]; eauto.
Qed.

Lemma C3_get_new_tokens_failure_witness :
  get_new_tokens (Response 503 (BodyJson feed_ABA)) = Ok (PList [])
  /\ get_new_tokens (RequestFailed TimeoutError) = Ok (PList [])
  /\ get_new_tokens (RequestFailed (ClientError (u "Cannot connect to host")))
     = Ok (PList [])
  /\ get_new_tokens (Response 200 (BodyError (JSONDecodeError (u "Expecting value"))))
     = Ok (PList []).
Proof.
  split; [| split; [| split]].
  - apply (proj1 (C3_get_new_tokens_failure (Response 503 (BodyJson feed_ABA)))).
    reflexivity.
  - apply (proj1 (C3_get_new_tokens_failure (RequestFailed TimeoutError))).
    reflexivity.
  - apply (proj1 (C3_get_new_tokens_failure
      (RequestFailed (ClientError (u "Cannot connect to host"))))). reflexivity.
  - apply (proj1 (C3_get_new_tokens_failure
      (Response 200 (BodyError (JSONDecodeError (u "Expecting value")))))).
    reflexivity.
Defined.

(** ** The monitor *)

(** C5. A truthy [price_usd] that [float] cannot convert is not coerced to
    zero: the body of the formatter raises (the exception of [float], unless
    the market cap already failed), [format_token_message] returns the error
    text with the exception's description, and [handle_token] posts that
    text for a record whose mint is new. *)
Theorem C5_price_not_convertible `{Runtime} inp k d price e st key :
  dict_lookup d (u "price_usd") = Some price ->
  truthy price = true ->
  py_float price = Raise e ->
  truthy (dict_get d (u "mint") (PStr [])) = true ->
  hash_key (dict_get d (u "mint") (PStr [])) = Ok key ->
  key ∉ seen_tokens st ->
  exists e',
    format_token_message_body (now_at inp k) (PDict d) = Raise e'
    /\ (e' = e
        \/ format_market_cap (dict_get d (u "usd_market_cap") (PInt 0)) = Raise e')
    /\ format_token_message (now_at inp k) (PDict d)
       = u "Error formatting token data: " ++ exc_str e'
    /\ handle_token inp k (PDict d) st
       = (Ok tt, {| seen_tokens := {[key]} ∪ seen_tokens st |},
          [Post (u "Error formatting token data: " ++ exc_str e'); Sleep 2]).
Proof.
  intros Hget Ht Hfloat Hmint Hkey Hnew.
  assert (Hprice : format_price (dict_get d (u "price_usd") (PInt 0)) = Raise e).
  { rewrite (dict_get_present _ _ _ _ Hget). unfold format_price.
    rewrite Ht, Hfloat. reflexivity. }
  assert (Hbody : exists e',
    format_token_message_body (now_at inp k) (PDict d) = Raise e'
    /\ (e' = e
        \/ format_market_cap (dict_get d (u "usd_market_cap") (PInt 0)) = Raise e')).
  { destruct (format_market_cap (dict_get d (u "usd_market_cap") (PInt 0)))
      as [mf | e1] eqn:Hcap.
    - exists e. split; [| left; reflexivity].
      apply (format_token_message_price_error _ _ mf); assumption.
    - exists e1. split; [| right; reflexivity].
      apply format_token_message_market_cap_error; assumption. }
  destruct Hbody as (e' & Hbody & Hwhich). exists e'.
  assert (Hmsg : format_token_message (now_at inp k) (PDict d)
                 = u "Error formatting token data: " ++ exc_str e').
  { unfold format_token_message. rewrite Hbody. reflexivity. }
  repeat (split; [assumption |]).
  rewrite handle_token_eq. cbn [py_get]. rewrite Hmint, Hkey, Hmsg.
  rewrite bool_decide_eq_true_2 by assumption. reflexivity.
Qed.

Lemma C5_price_not_convertible_witness :
  exists e',
    @format_token_message_body sample_runtime now0 (PDict token_text_price)
      = Raise e'
    /\ (e' = FloatArgError (PStr (u "abc"))
        \/ format_market_cap (dict_get token_text_price (u "usd_market_cap") (PInt 0))
           = Raise e')
    /\ @format_token_message sample_runtime now0 (PDict token_text_price)
       = u "Error formatting token data: " ++ sample_exc_str e'
    /\ @handle_token sample_runtime (sample_input feed_ABA) 0 (PDict token_text_price)
         init
       = (Ok tt, {| seen_tokens := {[HStr (u "A")]} ∪ ∅ |},
          [Post (u "Error formatting token data: " ++ sample_exc_str e'); Sleep 2]).
Proof.
  pose proof (@C5_price_not_convertible sample_runtime (sample_input feed_ABA)
                0%nat token_text_price (PStr (u "abc"))
                (FloatArgError (PStr (u "abc"))) init (HStr (u "A"))
                ltac:(vm_compute; reflexivity) ltac:(vm_compute; reflexivity)
                ltac:(vm_compute; reflexivity) ltac:(vm_compute; reflexivity)
                ltac:(vm_compute; reflexivity) ltac:(apply not_elem_of_empty))
    as Hw.
  vm_compute in Hw. vm_compute. exact Hw.
Defined.

(** The text posted for the record of the witness. *)
Example price_abc_message :
  @format_token_message sample_runtime now0 (PDict token_text_price)
  = u "Error formatting token data: could not convert string to float: 'abc'".
Proof. vm_compute. reflexivity. Qed.

(** A truthy value never hashes to the key of the empty string. *)
Lemma hash_key_truthy v key :
  truthy v = true -> hash_key v = Ok key -> key <> HStr [].
Proof.
  intros Ht Hkey ->. destruct v as [| b | z | f | s | l | d]; simpl in Hkey.
  - discriminate.
  - destruct b; discriminate.
  - destruct z; try discriminate;
      unfold num_key in Hkey; destruct (odd_part p); discriminate.
  - destruct f as [sg | sg | | sg m e]; try discriminate.
    unfold num_key in Hkey. destruct (odd_part m); discriminate.
  - injection Hkey as ->. discriminate.
  - discriminate.
  - discriminate.
Qed.

Lemma handle_token_no_empty_key `{Runtime} inp k token st r st' evs :
  handle_token inp k token st = (r, st', evs) -> no_empty_key st -> no_empty_key st'.
Proof.
  rewrite handle_token_eq. intros Hrun Hinv.
  destruct (py_get token (u "mint") (PStr [])) as [mint | e];
    [| injection Hrun as <- <- <-; exact Hinv].
  destruct (truthy mint) eqn:Ht; [| injection Hrun as <- <- <-; exact Hinv].
  destruct (hash_key mint) as [key | e] eqn:Hkey;
    [| injection Hrun as <- <- <-; exact Hinv].
  destruct (bool_decide (key ∉ seen_tokens st));
    injection Hrun as <- <- <-; [| exact Hinv].
  pose proof (hash_key_truthy mint key Ht Hkey) as Hne.
  unfold no_empty_key in *. simpl. set_solver.
Qed.

Lemma for_tokens_no_empty_key `{Runtime} inp tokens : forall k st r st' evs,
  for_tokens inp k tokens st = (r, st', evs) -> no_empty_key st -> no_empty_key st'.
Proof.
  induction tokens as [| token rest IH]; intros k st r st' evs Hrun Hinv.
  - injection Hrun as <- <- <-. exact Hinv.
  - rewrite for_tokens_cons in Hrun.
    destruct (handle_token inp k token st) as [[[[] | e] st1] ev1] eqn:Hone.
    + destruct (for_tokens inp (S k) rest st1) as [[r2 st2] ev2] eqn:Hrest.
      injection Hrun as <- <- <-.
      eapply IH; [exact Hrest |]. eapply handle_token_no_empty_key; eassumption.
    + injection Hrun as <- <- <-. eapply handle_token_no_empty_key; eassumption.
Qed.

Lemma monitor_round_no_empty_key `{Runtime} inp st r st' evs :
  monitor_round inp st = (r, st', evs) -> no_empty_key st -> no_empty_key st'.
Proof.
  unfold monitor_round, mtry, monitor_round_body, mbind, lift, emit, ret.
  intros Hrun Hinv.
  destruct (get_new_tokens (feed inp)) as [tokens | e];
    [| injection Hrun as <- <- <-; exact Hinv].
  destruct (truthy tokens); [| injection Hrun as <- <- <-; exact Hinv].
  destruct (py_iter tokens) as [items | e];
    [| injection Hrun as <- <- <-; exact Hinv].
  destruct (for_tokens inp 0 items st) as [[[[] | e] st1] ev1] eqn:Hloop.
  - destruct (py_len tokens); injection Hrun as <- <- <-;
      eapply for_tokens_no_empty_key; eassumption.
  - injection Hrun as <- <- <-. eapply for_tokens_no_empty_key; eassumption.
Qed.

(** C7. A record whose mint is missing or is the empty string sends no
    notification and leaves the seen set as it was; no step of the loop
    puts the empty string into the seen set, so it is in the seen set of no
    reachable state. *)
Theorem C7_empty_mint_skipped `{Runtime} :
  (forall inp k d st,
     dict_lookup d (u "mint") = None \/ dict_lookup d (u "mint") = Some (PStr []) ->
     handle_token inp k (PDict d) st = (Ok tt, st, []))
  /\ (forall inp k token st r st' evs,
       handle_token inp k token st = (r, st', evs) ->
       HStr [] ∉ seen_tokens st -> HStr [] ∉ seen_tokens st')
  /\ (forall st, reachable st -> HStr [] ∉ seen_tokens st).
Proof.
  split; [| split].
  - intros inp k d st Hmint. rewrite handle_token_eq. cbn [py_get].
    unfold dict_get. destruct Hmint as [-> | ->]; reflexivity.
  - intros inp k token st r st' evs. apply handle_token_no_empty_key.
  - intros st Hreach. induction Hreach as [| inp st r st' evs _ IH Hrun].
    + apply not_elem_of_empty.
    + exact (monitor_round_no_empty_key inp st r st' evs Hrun IH).
Qed.

Lemma C7_empty_mint_skipped_witness :
  @handle_token sample_runtime (sample_input feed_ABA) 0 (PDict token_without_mint)
    init = (Ok tt, init, [])
  /\ HStr [] ∉ seen_tokens {| seen_tokens := {[HStr (u "A"); HStr (u "B")]} |}.
Proof.
  split.
  - apply (proj1 (@C7_empty_mint_skipped sample_runtime)). left. reflexivity.
  - apply (proj2 (proj2 (@C7_empty_mint_skipped sample_runtime))).
    apply (@reach_round sample_runtime (sample_input feed_ABA) init (Ok tt) _
             [Post (message_for (u "A") now0); Sleep 2;
              Post (message_for (u "B") now0); Sleep 2; Sleep 30]);
      [apply reach_init |].
    vm_compute. reflexivity.
Defined.

Lemma for_tokens_app `{Runtime} inp pre rest : forall k st,
  for_tokens inp k (pre ++ rest) st =
  match for_tokens inp k pre st with
  | (Ok _, st1, ev1) =>
      let '(r, st2, ev2) := for_tokens inp (k + length pre) rest st1 in
      (r, st2, ev1 ++ ev2)
  | (Raise e, st1, ev1) => (Raise e, st1, ev1)
  end.
Proof.
  induction pre as [| token pre IH]; intros k st.
  - cbn [app for_tokens ret length]. rewrite Nat.add_0_r.
    destruct (for_tokens inp k rest st) as [[r st2] ev2]. reflexivity.
  - change ((token :: pre) ++ rest) with (token :: (pre ++ rest)).
    rewrite !for_tokens_cons.
    destruct (handle_token inp k token st) as [[[[] | e] st1] ev1]; [| reflexivity].
    rewrite IH. cbn [length]. rewrite Nat.add_succ_r.
    change (S k + length pre)%nat with (S (k + length pre)).
    destruct (for_tokens inp (S k) pre st1) as [[[[] | e] st2] ev2]; [| reflexivity].
    destruct (for_tokens inp (S (k + length pre)) rest st2) as [[r st3] ev3].
    rewrite (app_assoc ev1 ev2 ev3). reflexivity.
Qed.

(** A round over a 200 response whose body is a non-empty list. *)
Lemma monitor_round_list `{Runtime} inp items st :
  feed inp = Response 200 (BodyJson (PList items)) -> items <> [] ->
  monitor_round inp st =
  match for_tokens inp 0 items st with
  | (Ok _, st1, ev1) => (Ok tt, st1, ev1 ++ [Sleep 30])
  | (Raise e, st1, ev1) => (Ok tt, st1, ev1 ++ [Sleep 60])
  end.
Proof.
  intros Hfeed Hne.
  unfold monitor_round, mtry, monitor_round_body, mbind, lift, emit, ret.
  rewrite Hfeed. cbn [get_new_tokens get_new_tokens_body try_except response_json bind
                      isinstance_list Z.eqb Pos.eqb truthy py_iter py_len].
  destruct items as [| item items]; [congruence |]. cbn [length Nat.eqb negb].
  destruct (for_tokens inp 0 (item :: items) st) as [[[[] | e] st1] ev1];
    cbn [app]; rewrite ?app_nil_r; reflexivity.
Qed.

(** C10. When the feed list holds an element that is not a mapping, and the
    records before it are handled without an exception, the round handles
    those records as usual, stops at that element without touching the
    records after it, catches the exception, takes the 60-second pause
    instead of the 30-second one, and the loop goes on with the next round. *)
Theorem C10_non_mapping_element_stops_round `{Runtime}
  inp pre bad rest st st1 ev1 :
  feed inp = Response 200 (BodyJson (PList (pre ++ bad :: rest))) ->
  isinstance_dict bad = false ->
  for_tokens inp 0 pre st = (Ok tt, st1, ev1) ->
  monitor_round inp st = (Ok tt, st1, ev1 ++ [Sleep 60])
  /\ (forall later,
       monitor_rounds (inp :: later) st =
       let '(r, st2, ev2) := monitor_rounds later st1 in
       (r, st2, (ev1 ++ [Sleep 60]) ++ ev2)).
Proof.
  intros Hfeed Hbad Hpre.
  assert (Hround : monitor_round inp st = (Ok tt, st1, ev1 ++ [Sleep 60])).
  { rewrite (monitor_round_list inp (pre ++ bad :: rest) st Hfeed)
      by (destruct pre; discriminate).
    rewrite for_tokens_app, Hpre, for_tokens_cons, handle_token_eq.
    destruct bad; try discriminate Hbad; cbn [py_get]; rewrite app_nil_r;
      reflexivity. }
  split; [exact Hround |].
  intros later. cbn [monitor_rounds]. unfold mbind. rewrite Hround. reflexivity.
Qed.

Lemma C10_non_mapping_element_stops_round_witness :
  @monitor_round sample_runtime
    (sample_input (PList [mint_only "A"; PInt 7; mint_only "B"])) init
  = (Ok tt, {| seen_tokens := {[HStr (u "A")]} |},
     [Post (message_for (u "A") now0); Sleep 2; Sleep 60]).
Proof.
  assert (Hpre :
    @for_tokens sample_runtime
      (sample_input (PList [mint_only "A"; PInt 7; mint_only "B"])) 0
      [mint_only "A"] init
    = (Ok tt, {| seen_tokens := {[HStr (u "A")]} |},
       [Post (message_for (u "A") now0); Sleep 2]))
    by (vm_compute; reflexivity).
  pose proof (proj1 (@C10_non_mapping_element_stops_round sample_runtime
    (sample_input (PList [mint_only "A"; PInt 7; mint_only "B"]))
    [mint_only "A"] (PInt 7) [mint_only "B"] init _ _ eq_refl eq_refl Hpre)) as Hw.
  vm_compute in Hw. vm_compute. exact Hw.
Defined.

(** ** The notifier *)

(** Whatever the POST does (it raises, it answers 200, it answers another
    status and the body reads or fails to read), [send_telegram_message]
    returns normally, issues exactly one POST with the text it was given and
    leaves the seen set as it was. *)
Theorem send_telegram_message_never_raises o message st :
  exists evs,
    send_telegram_message o message st = (Ok tt, st, evs)
    /\ posts evs = [message].
Proof.
  exists [Post message]. split; [apply send_telegram_message_run | reflexivity].
Qed.

(** ** One record *)

(** What handling one record can do: nothing to the state and no event, or
    one new key, one POST of the record's message and the 2-second pause. *)
Lemma handle_token_outcome `{Runtime} inp k token st r st' evs :
  handle_token inp k token st = (r, st', evs) ->
  (st' = st /\ evs = [])
  \/ (exists key,
        r = Ok tt /\ (key ∉ seen_tokens st)
        /\ st' = {| seen_tokens := {[key]} ∪ seen_tokens st |}
        /\ evs = [Post (format_token_message (now_at inp k) token); Sleep 2]).
Proof.
  rewrite handle_token_eq. intros Hrun.
  destruct (py_get token (u "mint") (PStr [])) as [mint | e];
    [| injection Hrun as <- <- <-; left; split; reflexivity].
  destruct (truthy mint); [| injection Hrun as <- <- <-; left; split; reflexivity].
  destruct (hash_key mint) as [key | e];
    [| injection Hrun as <- <- <-; left; split; reflexivity].
  destruct (bool_decide (key ∉ seen_tokens st)) eqn:Hnew;
    injection Hrun as <- <- <-; [| left; split; reflexivity].
  right. exists key. apply bool_decide_eq_true_1 in Hnew. repeat split; assumption.
Qed.

Lemma posts_app evs1 evs2 : posts (evs1 ++ evs2) = posts evs1 ++ posts evs2.
Proof. unfold posts. apply omap_app. Qed.

Lemma paced_app t1 t2 : paced (t1 ++ t2) = paced t1 ++ paced t2.
Proof. unfold paced. apply flat_map_app. Qed.

(** The invariants of a batch, whether it ends normally or by an
    exception: the seen set only grows, it grows by one key for each POST,
    and each POST is followed by the 2-second pause. *)
Lemma for_tokens_invariants `{Runtime} inp tokens : forall k st r st' evs,
  for_tokens inp k tokens st = (r, st', evs) ->
  seen_tokens st ⊆ seen_tokens st'
  /\ size (seen_tokens st') = (size (seen_tokens st) + length (posts evs))%nat
  /\ evs = paced (posts evs).
Proof.
  induction tokens as [| token rest IH]; intros k st r st' evs Hrun.
  - injection Hrun as <- <- <-. repeat split; [set_solver | simpl; lia].
  - rewrite for_tokens_cons in Hrun.
    destruct (handle_token inp k token st) as [[r1 st1] ev1] eqn:Hone.
    assert (Hstep : seen_tokens st ⊆ seen_tokens st1
      /\ size (seen_tokens st1) = (size (seen_tokens st) + length (posts ev1))%nat
      /\ ev1 = paced (posts ev1)).
    { destruct (handle_token_outcome _ _ _ _ _ _ _ Hone)
        as [[-> ->] | (key & _ & Hnew & -> & ->)].
      - repeat split; [set_solver | simpl; lia].
      - cbn [seen_tokens]. repeat split; [set_solver |].
        rewrite size_union by set_solver. rewrite size_singleton.
        simpl. lia. }
    destruct Hstep as (Hsub1 & Hsize1 & Hpaced1).
    destruct r1 as [[] | e].
    + destruct (for_tokens inp (S k) rest st1) as [[r2 st2] ev2] eqn:Hrest.
      injection Hrun as <- <- <-.
      destruct (IH _ _ _ _ _ Hrest) as (Hsub2 & Hsize2 & Hpaced2).
      rewrite posts_app, paced_app, length_app, <- Hpaced1, <- Hpaced2.
      repeat split; [set_solver | lia].
    + injection Hrun as <- <- <-. repeat split; assumption.
Qed.

(** ** One round *)

(** A round in one piece. *)
Lemma monitor_round_eq `{Runtime} inp st :
  monitor_round inp st =
  match get_new_tokens (feed inp) with
  | Raise e => (Ok tt, st, [Sleep 60])
  | Ok tokens =>
      if truthy tokens then
        match py_iter tokens with
        | Raise e => (Ok tt, st, [Sleep 60])
        | Ok items =>
            match for_tokens inp 0 items st with
            | (Ok _, st1, ev1) => (Ok tt, st1, ev1 ++ [Sleep 30])
            | (Raise e, st1, ev1) => (Ok tt, st1, ev1 ++ [Sleep 60])
            end
        end
      else (Ok tt, st, [Sleep 30])
  end.
Proof.
  unfold monitor_round, mtry, monitor_round_body, mbind, lift, emit, ret.
  destruct (get_new_tokens (feed inp)) as [tokens | e]; [| reflexivity].
  destruct (truthy tokens); [| reflexivity].
  destruct (py_iter tokens) as [items | e] eqn:Hiter; [| reflexivity].
  assert (Hlen : exists n, py_len tokens = Ok n)
    by (destruct tokens; try discriminate Hiter; eexists; reflexivity).
  destruct Hlen as [n ->].
  destruct (for_tokens inp 0 items st) as [[[[] | e] st1] ev1];
    cbn [app]; rewrite ?app_nil_r; reflexivity.
Qed.

(** The outcome of a round, whichever way its body ends. *)
Lemma monitor_round_outcome `{Runtime} inp st r st' evs :
  monitor_round inp st = (r, st', evs) ->
  r = Ok tt
  /\ (exists texts secs,
        evs = paced texts ++ [Sleep secs] /\ (secs = 30 \/ secs = 60)
        /\ posts evs = texts)
  /\ seen_tokens st ⊆ seen_tokens st'
  /\ size (seen_tokens st') = (size (seen_tokens st) + length (posts evs))%nat.
Proof.
  rewrite monitor_round_eq. intros Hrun.
  assert (Hidle : forall secs, (secs = 30 \/ secs = 60) ->
    (r, st', evs) = (Ok tt, st, [Sleep secs]) ->
    r = Ok tt
    /\ (exists texts secs0,
          evs = paced texts ++ [Sleep secs0] /\ (secs0 = 30 \/ secs0 = 60)
          /\ posts evs = texts)
    /\ seen_tokens st ⊆ seen_tokens st'
    /\ size (seen_tokens st') = (size (seen_tokens st) + length (posts evs))%nat).
  { intros secs Hsecs [= -> -> ->]. split; [reflexivity |]. split.
    - exists [], secs. repeat split; assumption.
    - split; [set_solver | simpl; lia]. }
  assert (Hbatch : forall items ev1 secs, (secs = 30 \/ secs = 60) ->
    forall r1, for_tokens inp 0 items st = (r1, st', ev1) ->
    evs = ev1 ++ [Sleep secs] -> r = Ok tt ->
    r = Ok tt
    /\ (exists texts secs0,
          evs = paced texts ++ [Sleep secs0] /\ (secs0 = 30 \/ secs0 = 60)
          /\ posts evs = texts)
    /\ seen_tokens st ⊆ seen_tokens st'
    /\ size (seen_tokens st') = (size (seen_tokens st) + length (posts evs))%nat).
  { intros items ev1 secs Hsecs r1 Hloop -> ->.
    destruct (for_tokens_invariants _ _ _ _ _ _ _ Hloop) as (Hsub & Hsize & Hpaced).
    assert (Hposts : posts (ev1 ++ [Sleep secs]) = posts ev1)
      by (rewrite posts_app; simpl; apply app_nil_r).
    split; [reflexivity |]. split.
    - exists (posts ev1), secs. rewrite <- Hpaced. repeat split; assumption.
    - rewrite Hposts. split; assumption. }
  destruct (get_new_tokens (feed inp)) as [tokens | e];
    [| apply (Hidle 60); [right; reflexivity | symmetry; exact Hrun]].
  destruct (truthy tokens);
    [| apply (Hidle 30); [left; reflexivity | symmetry; exact Hrun]].
  destruct (py_iter tokens) as [items | e];
    [| apply (Hidle 60); [right; reflexivity | symmetry; exact Hrun]].
  destruct (for_tokens inp 0 items st) as [[[[] | e] st1] ev1] eqn:Hloop;
    injection Hrun as <- <- <-.
  - apply (Hbatch items ev1 30 (or_introl eq_refl) _ Hloop); reflexivity.
  - apply (Hbatch items ev1 60 (or_intror eq_refl) _ Hloop); reflexivity.
Qed.

(** No exception leaves a round: it returns normally and ends with exactly
    one pause, of 30 seconds or, after an exception, of 60; before that
    pause every POST is followed by the 2-second pause. The seen set only
    grows, and it grows by exactly one key for each notification posted. *)
Theorem monitor_round_returns `{Runtime} inp st r st' evs :
  monitor_round inp st = (r, st', evs) ->
  r = Ok tt
  /\ (exists secs, evs = paced (posts evs) ++ [Sleep secs] /\ (secs = 30 \/ secs = 60))
  /\ seen_tokens st ⊆ seen_tokens st'
  /\ size (seen_tokens st') = (size (seen_tokens st) + length (posts evs))%nat.
Proof.
  intros Hrun.
  destruct (monitor_round_outcome _ _ _ _ _ Hrun)
    as (Hr & (texts & secs & Hevs & Hsecs & Hposts) & Hsub & Hsize).
  split; [exact Hr |]. split; [| split; assumption].
  exists secs. rewrite Hposts. split; assumption.
Qed.

Lemma monitor_round_returns_witness :
  exists secs,
    [Post (message_for (u "A") now0); Sleep 2;
     Post (message_for (u "B") now0); Sleep 2; Sleep 30]
    = paced [message_for (u "A") now0; message_for (u "B") now0] ++ [Sleep secs]
    /\ (secs = 30 \/ secs = 60).
Proof.
  assert (Hrun :
    @monitor_round sample_runtime (sample_input feed_ABA) init
    = (Ok tt, {| seen_tokens := {[HStr (u "A"); HStr (u "B")]} |},
       [Post (message_for (u "A") now0); Sleep 2;
        Post (message_for (u "B") now0); Sleep 2; Sleep 30]))
    by (vm_compute; reflexivity).
  exact (proj1 (proj2 (@monitor_round_returns sample_runtime _ _ _ _ _ Hrun))).
Defined.

(** A failed fetch is no failure of the round: when the feed request
    raises, answers another status than 200 or has an unparsable body, the
    round sends nothing, keeps the seen set and takes the 30-second pause,
    not the backoff. *)
Theorem monitor_round_feed_failure `{Runtime} inp st :
  feed_failure (feed inp) = true ->
  monitor_round inp st = (Ok tt, st, [Sleep 30]).
Proof.
  intros Hfail. rewrite monitor_round_eq.
  assert (Hget : get_new_tokens (feed inp) = Ok (PList [])).
  { unfold get_new_tokens, try_except.
    destruct (feed inp) as [e | status [data | e]]; simpl in *; try reflexivity.
    - rewrite orb_false_r in Hfail. apply negb_true_iff in Hfail.
      rewrite Hfail. reflexivity.
    - destruct (status =? 200); reflexivity. }
  rewrite Hget. reflexivity.
Qed.

Lemma monitor_round_feed_failure_witness :
  @monitor_round sample_runtime
    {| feed := Response 503 (BodyJson feed_ABA);
       now_at := fun _ => now0; post_at := fun _ => PostFailed TimeoutError |} init
  = (Ok tt, init, [Sleep 30]).
Proof.
  apply (@monitor_round_feed_failure sample_runtime
           {| feed := Response 503 (BodyJson feed_ABA);
              now_at := fun _ => now0; post_at := fun _ => PostFailed TimeoutError |}
           init).
  reflexivity.
Defined.

(** A 200 body that is an object whose ["coins"] entry is truthy and not a
    list (a number, a string, an object) costs one backoff: the round sends
    nothing, keeps the seen set and takes the 60-second pause. *)
Theorem monitor_round_coins_not_a_list `{Runtime} inp d coins st :
  feed inp = Response 200 (BodyJson (PDict d)) ->
  dict_lookup d (u "coins") = Some coins ->
  truthy coins = true ->
  isinstance_list coins = false ->
  monitor_round inp st = (Ok tt, st, [Sleep 60]).
Proof.
  intros Hfeed Hcoins Ht Hlist. rewrite monitor_round_eq, Hfeed.
  cbn [get_new_tokens get_new_tokens_body try_except response_json bind
       isinstance_list Z.eqb Pos.eqb py_get].
  rewrite (dict_get_present _ _ _ _ Hcoins), Ht.
  destruct coins as [| b | z | f | s | l | d']; try discriminate Hlist;
    try reflexivity.
  - destruct s as [| c s]; [discriminate Ht |]. reflexivity.
  - destruct d' as [| [key v] d']; [discriminate Ht |]. reflexivity.
Qed.

Lemma monitor_round_coins_not_a_list_witness :
  @monitor_round sample_runtime
    (sample_input (PDict [(u "coins", PStr (u "maintenance"))])) init
  = (Ok tt, init, [Sleep 60]).
Proof.
  apply (@monitor_round_coins_not_a_list sample_runtime
           (sample_input (PDict [(u "coins", PStr (u "maintenance"))]))
           [(u "coins", PStr (u "maintenance"))] (PStr (u "maintenance")) init);
    reflexivity.
Defined.

(** ** Deduplication *)

(** Records that were handled once are skipped when they come again: a
    batch run a second time, from the state the first run left or from any
    state that has seen at least as much, ends the way the first run did,
    posts nothing and changes nothing. *)
Lemma for_tokens_again `{Runtime} inp tokens : forall k st r st' evs,
  for_tokens inp k tokens st = (r, st', evs) ->
  forall inp2 k2 st2, seen_tokens st' ⊆ seen_tokens st2 ->
  for_tokens inp2 k2 tokens st2 = (r, st2, []).
Proof.
  induction tokens as [| token rest IH]; intros k st r st' evs Hrun inp2 k2 st2 Hsub.
  - injection Hrun as <- _ _. reflexivity.
  - rewrite for_tokens_cons in Hrun. rewrite for_tokens_cons.
    rewrite handle_token_eq in Hrun. rewrite handle_token_eq.
    destruct (py_get token (u "mint") (PStr [])) as [mint | e];
      [| injection Hrun as <- _ _; reflexivity].
    destruct (truthy mint).
    + destruct (hash_key mint) as [key | e];
        [| injection Hrun as <- _ _; reflexivity].
      destruct (bool_decide (key ∉ seen_tokens st)) eqn:Hnew.
      * destruct (for_tokens inp (S k) rest
                    {| seen_tokens := {[key]} ∪ seen_tokens st |})
          as [[r2 st3] ev2] eqn:Hrest.
        injection Hrun as <- <- <-.
        destruct (for_tokens_invariants _ _ _ _ _ _ _ Hrest) as (Hgrow & _).
        cbn [seen_tokens] in Hgrow.
        rewrite bool_decide_eq_false_2 by set_solver.
        rewrite (IH _ _ _ _ _ Hrest inp2 (S k2) st2 Hsub). reflexivity.
      * destruct (for_tokens inp (S k) rest st) as [[r2 st3] ev2] eqn:Hrest.
        injection Hrun as <- <- <-.
        destruct (for_tokens_invariants _ _ _ _ _ _ _ Hrest) as (Hgrow & _).
        apply bool_decide_eq_false_1 in Hnew.
        rewrite bool_decide_eq_false_2 by set_solver.
        rewrite (IH _ _ _ _ _ Hrest inp2 (S k2) st2 Hsub). reflexivity.
    + destruct (for_tokens inp (S k) rest st) as [[r2 st3] ev2] eqn:Hrest.
      injection Hrun as <- <- <-.
      rewrite (IH _ _ _ _ _ Hrest inp2 (S k2) st2 Hsub). reflexivity.
Qed.

(** A round over the feed outcome of the round before it sends no
    notification and leaves the seen set as it is, whatever the feed holds
    and however the first round ended. *)
Theorem monitor_round_twice `{Runtime} inp st r st' evs inp2 :
  monitor_round inp st = (r, st', evs) ->
  feed inp2 = feed inp ->
  exists secs,
    monitor_round inp2 st' = (Ok tt, st', [Sleep secs])
    /\ (secs = 30 \/ secs = 60).
Proof.
  rewrite !monitor_round_eq. intros Hrun ->.
  destruct (get_new_tokens (feed inp)) as [tokens | e];
    [| injection Hrun as _ <- _; exists 60; split; [reflexivity | right; reflexivity]].
  destruct (truthy tokens);
    [| injection Hrun as _ <- _; exists 30; split; [reflexivity | left; reflexivity]].
  destruct (py_iter tokens) as [items | e];
    [| injection Hrun as _ <- _; exists 60; split; [reflexivity | right; reflexivity]].
  destruct (for_tokens inp 0 items st) as [[r1 st1] ev1] eqn:Hloop.
  assert (Hst : st1 = st') by (destruct r1 as [[] | e]; injection Hrun as _ <- _; reflexivity).
  subst st1.
  rewrite (for_tokens_again _ _ _ _ _ _ _ Hloop inp2 0%nat st') by set_solver.
  destruct r1 as [[] | e].
  - exists 30. split; [reflexivity | left; reflexivity].
  - exists 60. split; [reflexivity | right; reflexivity].
Qed.

Lemma monitor_round_twice_witness :
  exists secs,
    @monitor_round sample_runtime (sample_input feed_ABA)
      {| seen_tokens := {[HStr (u "A"); HStr (u "B")]} |}
    = (Ok tt, {| seen_tokens := {[HStr (u "A"); HStr (u "B")]} |}, [Sleep secs])
    /\ (secs = 30 \/ secs = 60).
Proof.
  apply (@monitor_round_twice sample_runtime (sample_input feed_ABA) init (Ok tt)
           {| seen_tokens := {[HStr (u "A"); HStr (u "B")]} |}
           [Post (message_for (u "A") now0); Sleep 2;
            Post (message_for (u "B") now0); Sleep 2; Sleep 30]
           (sample_input feed_ABA));
    [vm_compute; reflexivity | reflexivity].
Defined.

(** ** Which batches end by an exception *)

Lemma hash_key_hashable v : returned (hash_key v) = hashable v.
Proof.
  destruct v as [| b | [| p | p] | [sg | sg | | sg m e] | s | l | d]; reflexivity.
Qed.

Lemma handle_token_returned `{Runtime} inp k token st :
  returned (handle_token inp k token st).1.1 = keyable token.
Proof.
  rewrite handle_token_eq.
  destruct token as [| b | z | f | s | l | d]; try reflexivity.
  cbn [py_get keyable].
  destruct (truthy (dict_get d (u "mint") (PStr []))); [| reflexivity].
  rewrite <- hash_key_hashable.
  destruct (hash_key (dict_get d (u "mint") (PStr []))) as [key | e];
    [| reflexivity].
  destruct (bool_decide (key ∉ seen_tokens st)); reflexivity.
Qed.

Lemma for_tokens_returned `{Runtime} inp tokens : forall k st,
  returned (for_tokens inp k tokens st).1.1 = forallb keyable tokens.
Proof.
  induction tokens as [| token rest IH]; intros k st; [reflexivity |].
  rewrite for_tokens_cons. cbn [forallb].
  rewrite <- (handle_token_returned inp k token st).
  destruct (handle_token inp k token st) as [[[[] | e] st1] ev1]; [| reflexivity].
  rewrite <- (IH (S k) st1).
  destruct (for_tokens inp (S k) rest st1) as [[r st2] ev2]. reflexivity.
Qed.

(** A round over a 200 response whose body is a list takes the 30-second
    pause exactly when every element is a mapping whose mint is falsy or
    hashable, and the 60-second backoff otherwise. In particular no price,
    market cap or description a record may hold sends the round into the
    backoff: the formatter turns them into its error text. *)
Theorem monitor_round_pause `{Runtime} inp items st :
  feed inp = Response 200 (BodyJson (PList items)) ->
  exists st' evs,
    monitor_round inp st
    = (Ok tt, st', evs ++ [Sleep (if forallb keyable items then 30 else 60)])
    /\ evs = paced (posts evs).
Proof.
  intros Hfeed. rewrite monitor_round_eq, Hfeed.
  cbn [get_new_tokens get_new_tokens_body try_except response_json bind
       isinstance_list Z.eqb Pos.eqb truthy py_iter].
  destruct items as [| item items].
  - exists st, []. split; reflexivity.
  - cbn [length Nat.eqb negb].
    pose proof (for_tokens_returned inp (item :: items) 0 st) as Hret.
    destruct (for_tokens inp 0 (item :: items) st) as [[r st1] ev1] eqn:Hloop.
    destruct (for_tokens_invariants _ _ _ _ _ _ _ Hloop) as (_ & _ & Hpaced).
    exists st1, ev1. split; [| exact Hpaced].
    cbn [fst] in Hret. rewrite <- Hret. destruct r as [[] | e]; reflexivity.
Qed.

Lemma monitor_round_pause_witness :
  exists st' evs,
    @monitor_round sample_runtime
      (sample_input (PList [PDict token_text_price; PDict token_without_mint])) init
    = (Ok tt, st', evs ++ [Sleep 30])
    /\ evs = paced (posts evs).
Proof.
  apply (@monitor_round_pause sample_runtime
           (sample_input (PList [PDict token_text_price; PDict token_without_mint]))
           [PDict token_text_price; PDict token_without_mint] init).
  reflexivity.
Defined.

(** ** The whole run *)

Lemma round_pauses_app evs1 evs2 :
  round_pauses (evs1 ++ evs2) = round_pauses evs1 ++ round_pauses evs2.
Proof. unfold round_pauses. apply omap_app. Qed.

Lemma round_pauses_paced texts : round_pauses (paced texts) = [].
Proof. induction texts as [| text texts IH]; [reflexivity | exact IH]. Qed.

Lemma monitor_rounds_run `{Runtime} inputs : forall st r st' evs,
  monitor_rounds inputs st = (r, st', evs) ->
  r = Ok tt
  /\ seen_tokens st ⊆ seen_tokens st'
  /\ size (seen_tokens st') = (size (seen_tokens st) + length (posts evs))%nat
  /\ length (round_pauses evs) = length inputs.
Proof.
  induction inputs as [| inp rest IH]; intros st r st' evs Hrun.
  - injection Hrun as <- <- <-. repeat split; [set_solver | simpl; lia].
  - cbn [monitor_rounds] in Hrun. unfold mbind in Hrun.
    destruct (monitor_round inp st) as [[r1 st1] ev1] eqn:Hround.
    destruct (monitor_round_outcome _ _ _ _ _ Hround)
      as (-> & (texts & secs & Hev1 & Hsecs & _) & Hsub1 & Hsize1).
    destruct (monitor_rounds rest st1) as [[r2 st2] ev2] eqn:Hrest.
    injection Hrun as <- <- <-.
    destruct (IH _ _ _ _ Hrest) as (-> & Hsub2 & Hsize2 & Hpauses2).
    rewrite posts_app, length_app, round_pauses_app, length_app, Hpauses2.
    repeat split; [set_solver | lia |].
    rewrite Hev1, round_pauses_app, round_pauses_paced.
    destruct Hsecs as [-> | ->]; reflexivity.
Qed.

(** The run of the monitor over any number of rounds: no exception leaves
    it; its first event is the POST of the startup message; the seen set
    only grows; besides the startup message exactly one notification is
    posted for each key that entered the seen set; and every round takes
    exactly one pause of 30 or 60 seconds. *)
Theorem monitor_new_tokens_run `{Runtime} start inputs st r st' evs :
  monitor_new_tokens start inputs st = (r, st', evs) ->
  r = Ok tt
  /\ (exists later, evs = Post startup_message :: later)
  /\ seen_tokens st ⊆ seen_tokens st'
  /\ length (posts evs) = (1 + (size (seen_tokens st') - size (seen_tokens st)))%nat
  /\ length (round_pauses evs) = length inputs.
Proof.
  unfold monitor_new_tokens, mbind. rewrite send_telegram_message_run.
  destruct (monitor_rounds inputs st) as [[r2 st2] ev2] eqn:Hrest.
  intros [= <- <- <-].
  destruct (monitor_rounds_run _ _ _ _ _ Hrest) as (-> & Hsub & Hsize & Hpauses).
  split; [reflexivity |]. split; [exists ev2; reflexivity |].
  split; [exact Hsub |]. split; [| exact Hpauses].
  change (posts (Post startup_message :: ev2)) with (startup_message :: posts ev2).
  cbn [length]. lia.
Qed.

Lemma monitor_new_tokens_run_witness :
  length (posts
    (@monitor_new_tokens sample_runtime (PostResponse 200 (Ok []))
       [sample_input feed_ABA; sample_input feed_ABA] init).2) = 3%nat
  /\ length (round_pauses
    (@monitor_new_tokens sample_runtime (PostResponse 200 (Ok []))
       [sample_input feed_ABA; sample_input feed_ABA] init).2) = 2%nat.
Proof.
  destruct (@monitor_new_tokens sample_runtime (PostResponse 200 (Ok []))
              [sample_input feed_ABA; sample_input feed_ABA] init)
    as [[r st'] evs] eqn:Hrun.
  destruct (@monitor_new_tokens_run sample_runtime _ _ _ _ _ _ Hrun)
    as (_ & _ & _ & Hposts & Hpauses).
  cbn [snd]. rewrite Hposts, Hpauses.
  assert (Hst : st' = {| seen_tokens := {[HStr (u "A"); HStr (u "B")]} |}).
  { vm_compute in Hrun. injection Hrun as _ <- _. vm_compute. reflexivity. }
  subst st'. split; [vm_compute | ]; reflexivity.
Defined.

(** ** The formatter: a description that cannot be sliced *)

(** A record whose description is present but is neither a string nor a
    list (the JSON [null], a number, a boolean, an object) gets the error
    text instead of a message, even when its market cap and its price
    format. *)
Theorem format_token_message_description_not_text `{Runtime} now d description pf mf :
  dict_lookup d (u "description") = Some description ->
  match description with PStr _ | PList _ => False | _ => True end ->
  format_market_cap (dict_get d (u "usd_market_cap") (PInt 0)) = Ok mf ->
  format_price (dict_get d (u "price_usd") (PInt 0)) = Ok pf ->
  format_token_message now (PDict d)
  = u "Error formatting token data: " ++ exc_str (SubscriptError description).
Proof.
  intros Hget Hkind Hmf Hpf. unfold format_token_message.
  rewrite format_token_message_body_dict, Hmf, Hpf.
  rewrite (dict_get_present _ _ _ _ Hget).
  destruct description; try contradiction; reflexivity.
Qed.

Lemma format_token_message_description_not_text_witness :
  @format_token_message sample_runtime now0
    (PDict [(u "mint", PStr (u "A")); (u "description", PNone)])
  = u "Error formatting token data: 'NoneType' object is not subscriptable".
Proof.
  pose proof (@format_token_message_description_not_text sample_runtime now0
                [(u "mint", PStr (u "A")); (u "description", PNone)] PNone
                (u "N/A") (u "N/A") ltac:(vm_compute; reflexivity) I
                ltac:(vm_compute; reflexivity) ltac:(vm_compute; reflexivity))
    as Hw.
  vm_compute in Hw. vm_compute. exact Hw.
Defined.

(** ** Integers are printed exactly *)

Lemma digits2_pos_size m : digits2_pos m = Pos.size m.
Proof. induction m as [m IH | m IH |]; simpl; congruence. Qed.

Lemma digits2_pos_bound m :
  Z.pos m < 2 ^ 53 -> 1 <= Z.pos (digits2_pos m) <= 53.
Proof.
  intros Hm. split; [lia |]. rewrite digits2_pos_size.
  pose proof (Pos.size_le m) as Hle.
  assert (Hpow : 2 ^ Z.pos (Pos.size m) <= 2 * Z.pos m).
  { rewrite <- Pos2Z.inj_pow. change (2 * Z.pos m) with (Z.pos m~0). lia. }
  destruct (Z.le_gt_cases (Z.pos (Pos.size m)) 53) as [Hok | Hbig]; [exact Hok |].
  assert (2 ^ 54 <= 2 ^ Z.pos (Pos.size m)) by (apply Z.pow_le_mono_r; lia).
  change (2 ^ 54) with (2 * 2 ^ 53) in *. lia.
Qed.

Lemma digits2_pos_iter_xO k : forall m,
  Z.pos (digits2_pos (Pos.iter xO m k)) = Z.pos (digits2_pos m) + Z.pos k.
Proof.
  induction k as [| k IH] using Pos.peano_ind; intros m.
  - simpl. lia.
  - rewrite Pos.iter_succ. simpl digits2_pos. rewrite Pos2Z.inj_succ, IH. lia.
Qed.

Lemma iter_xO_value k : forall m, Z.pos (Pos.iter xO m k) = Z.pos m * 2 ^ Z.pos k.
Proof.
  induction k as [| k IH] using Pos.peano_ind; intros m.
  - simpl. lia.
  - rewrite Pos.iter_succ, Pos2Z.inj_xO, IH, Pos2Z.inj_succ, Z.pow_succ_r; lia.
Qed.

(** A 53-bit mantissa with an exponent in range needs no rounding. *)
Lemma binary_round_aux_exact sx mz ez :
  Z.pos (digits2_pos mz) = 53 -> -1074 <= ez <= 971 ->
  binary_round_aux 53 1024 sx (Z.pos mz) ez loc_Exact = S754_finite sx mz ez.
Proof.
  intros Hd Hez.
  assert (Hshift : fexp 53 1024 (Zdigits2 (Z.pos mz) + ez) - ez = 0).
  { unfold fexp, emin. simpl Zdigits2. rewrite Hd. lia. }
  unfold binary_round_aux, shr_fexp. rewrite Hshift.
  cbn [shr shr_record_of_loc shr_m loc_of_shr_record round_nearest_even].
  rewrite Hshift. cbn [shr shr_record_of_loc shr_m].
  replace (ez <=? 1024 - 53) with true by (symmetry; apply Z.leb_le; lia).
  reflexivity.
Qed.

(** Below [2^53] the conversion of an int to a float loses nothing. *)
Lemma float_of_int_exact sx m :
  Z.pos m < 2 ^ 53 ->
  exists mz ez,
    binary_round 53 1024 sx m 0 = S754_finite sx mz ez
    /\ ez <= 0 /\ Z.pos mz = Z.pos m * 2 ^ (- ez).
Proof.
  intros Hm. pose proof (digits2_pos_bound m Hm) as Hd.
  unfold binary_round, shl_align.
  assert (Hfexp : fexp 53 1024 (Z.pos (digits2_pos m) + 0) = Z.pos (digits2_pos m) - 53)
    by (unfold fexp, emin; lia).
  rewrite Hfexp.
  destruct (Z.pos (digits2_pos m) - 53 - 0) as [| k | k] eqn:Hdiff; try lia.
  - exists m, 0. split; [| split; [lia | simpl; lia]].
    apply binary_round_aux_exact; lia.
  - exists (Pos.iter xO m k), (Z.pos (digits2_pos m) - 53).
    split; [| split; [lia |]].
    + apply binary_round_aux_exact; [| lia].
      rewrite digits2_pos_iter_xO. lia.
    + rewrite iter_xO_value. f_equal. f_equal. lia.
Qed.

Lemma scaled_exact p mz ez n :
  ez <= 0 -> Z.pos mz = n * 2 ^ (- ez) -> scaled p mz ez = n * 10 ^ Z.of_nat p.
Proof.
  intros Hez Hmz. unfold scaled.
  destruct (Z.leb_spec 0 ez) as [Hge | Hlt].
  - assert (ez = 0) by lia. subst ez. rewrite Hmz. simpl. lia.
  - unfold round_half_even.
    assert (Hpos : 0 < 2 ^ (- ez)) by (apply Z.pow_pos_nonneg; lia).
    replace (Z.pos mz * 10 ^ Z.of_nat p) with (n * 10 ^ Z.of_nat p * 2 ^ (- ez))
      by (rewrite Hmz; ring).
    rewrite Z.mod_mul, Z.div_mul by lia.
    replace (2 * 0 ?= 2 ^ (- ez)) with Lt by (symmetry; apply Z.compare_lt_iff; lia).
    reflexivity.
Qed.

Lemma frac_digits_zero p : frac_digits p 0 = replicate p 48%N.
Proof.
  induction p as [| p IH]; [reflexivity |].
  cbn [frac_digits]. change (0 / 10) with 0. rewrite IH.
  change [digit (0 mod 10)] with (replicate 1 48%N).
  rewrite <- replicate_add. f_equal. lia.
Qed.

Lemma format_float_f_exact grouping p sx m :
  Z.pos m < 2 ^ 53 ->
  exists f,
    binary_round 53 1024 sx m 0 = f
    /\ format_float_f grouping p f
       = sign_str sx
         ++ (if grouping then group_thousands (dec (Z.pos m)) else dec (Z.pos m))
         ++ u "." ++ replicate p 48%N.
Proof.
  intros Hm. destruct (float_of_int_exact sx m Hm) as (mz & ez & Hf & Hez & Hmz).
  exists (S754_finite sx mz ez). split; [exact Hf |].
  cbn [format_float_f]. rewrite (scaled_exact p mz ez (Z.pos m) Hez Hmz).
  unfold fixed_digits.
  assert (Hten : 0 < 10 ^ Z.of_nat p) by (apply Z.pow_pos_nonneg; lia).
  rewrite Z.div_mul, Z.mod_mul, frac_digits_zero by lia. reflexivity.
Qed.

(** An integer market cap or price of magnitude below [2^53] other than
    zero is printed exactly: its sign, its decimal digits (grouped by
    thousands for the market cap) and a fraction of zeros, two for the
    market cap and eight for the price. *)
Theorem format_int_exact `{Runtime} (z : Z) :
  z <> 0 -> Z.abs z < 2 ^ 53 ->
  format_market_cap (PInt z)
    = Ok (u "$" ++ sign_str (z <? 0) ++ group_thousands (dec (Z.abs z)) ++ u ".00")
  /\ format_price (PInt z)
     = Ok (u "$" ++ sign_str (z <? 0) ++ dec (Z.abs z) ++ u ".00000000").
Proof.
  intros Hz Habs.
  assert (Hconv : forall grouping p,
    exists f, float_of_int z = Ok f
      /\ format_float_f grouping p f
         = sign_str (z <? 0)
           ++ (if grouping then group_thousands (dec (Z.abs z)) else dec (Z.abs z))
           ++ u "." ++ replicate p 48%N).
  { intros grouping p. unfold float_of_int, binary_normalize.
    destruct z as [| m | m]; [congruence | |].
    - destruct (format_float_f_exact grouping p false m Habs) as (f & Hf & Htext).
      destruct (float_of_int_exact false m Habs) as (mz & ez & Hf' & _).
      exists f. rewrite Hf. rewrite Hf' in Hf. subst f. split; [reflexivity | exact Htext].
    - destruct (format_float_f_exact grouping p true m Habs) as (f & Hf & Htext).
      destruct (float_of_int_exact true m Habs) as (mz & ez & Hf' & _).
      exists f. rewrite Hf. rewrite Hf' in Hf. subst f. split; [reflexivity | exact Htext]. }
  assert (Ht : truthy (PInt z) = true)
    by (simpl; destruct (Z.eqb_spec z 0); [contradiction | reflexivity]).
  split.
  - destruct (Hconv true 2%nat) as (f & Hf & Htext).
    rewrite (format_market_cap_truthy (PInt z) f Ht Hf), Htext. reflexivity.
  - destruct (Hconv false 8%nat) as (f & Hf & Htext).
    rewrite (format_price_truthy (PInt z) f Ht Hf), Htext. reflexivity.
Qed.

Lemma format_int_exact_witness :
  format_market_cap (PInt 1234567) = Ok (u "$1,234,567.00")
  /\ @format_price sample_runtime (PInt (-42)) = Ok (u "$-42.00000000").
Proof.
  split.
  - pose proof (proj1 (@format_int_exact sample_runtime 1234567
                         ltac:(discriminate) ltac:(reflexivity))) as Hw.
    vm_compute in Hw. vm_compute. exact Hw.
  - pose proof (proj2 (@format_int_exact sample_runtime (-42)
                         ltac:(discriminate) ltac:(reflexivity))) as Hw.
    vm_compute in Hw. vm_compute. exact Hw.
Defined.

(** ** Order of the notifications *)

Lemma for_tokens_posts_sublist `{Runtime} inp tokens : forall k st r st' evs,
  for_tokens inp k tokens st = (r, st', evs) ->
  posts evs `sublist_of` batch_messages inp k tokens.
Proof.
  induction tokens as [| token rest IH]; intros k st r st' evs Hrun.
  - injection Hrun as _ _ <-. constructor.
  - rewrite for_tokens_cons in Hrun.
    destruct (handle_token inp k token st) as [[r1 st1] ev1] eqn:Hone.
    destruct r1 as [[] | e].
    + destruct (for_tokens inp (S k) rest st1) as [[r2 st2] ev2] eqn:Hrest.
      injection Hrun as _ _ <-. rewrite posts_app.
      pose proof (IH _ _ _ _ _ Hrest) as Hsub.
      destruct (handle_token_outcome _ _ _ _ _ _ _ Hone)
        as [[_ ->] | (key & _ & _ & _ & ->)].
      * apply sublist_cons. exact Hsub.
      * apply sublist_skip. exact Hsub.
    + injection Hrun as _ _ <-.
      destruct (handle_token_outcome _ _ _ _ _ _ _ Hone)
        as [[_ ->] | (key & Hr & _)]; [| discriminate Hr].
      apply sublist_nil_l.
Qed.

(** The notifications of a round over a list body come in feed order, at
    most one for each record: the texts posted are a sublist of the messages
    of the records of the feed. *)
Theorem monitor_round_posts_in_feed_order `{Runtime} inp items st r st' evs :
  feed inp = Response 200 (BodyJson (PList items)) ->
  monitor_round inp st = (r, st', evs) ->
  posts evs `sublist_of` batch_messages inp 0 items.
Proof.
  intros Hfeed. rewrite monitor_round_eq, Hfeed.
  cbn [get_new_tokens get_new_tokens_body try_except response_json bind
       isinstance_list Z.eqb Pos.eqb truthy py_iter].
  destruct items as [| item items]; [intros [= _ _ <-]; constructor |].
  cbn [length Nat.eqb negb].
  destruct (for_tokens inp 0 (item :: items) st) as [[r1 st1] ev1] eqn:Hloop.
  pose proof (for_tokens_posts_sublist _ _ _ _ _ _ _ Hloop) as Hsub.
  destruct r1 as [[] | e]; intros [= _ _ <-];
    rewrite posts_app, app_nil_r; exact Hsub.
Qed.

Lemma monitor_round_posts_in_feed_order_witness :
  posts (@monitor_round sample_runtime (sample_input feed_ABA) init).2
  `sublist_of` [message_for (u "A") now0; message_for (u "B") now0;
                message_for (u "A") now0].
Proof.
  destruct (@monitor_round sample_runtime (sample_input feed_ABA) init)
    as [[r st'] evs] eqn:Hrun.
  pose proof (@monitor_round_posts_in_feed_order sample_runtime
                (sample_input feed_ABA) _ init r st' evs eq_refl Hrun) as Hw.
  vm_compute in Hw. vm_compute. exact Hw.
Defined.

(** ** A failed POST is not retried *)

Lemma monitor_round_same_feed_and_clock `{Runtime} inp inp2 st :
  feed inp = feed inp2 -> now_at inp = now_at inp2 ->
  monitor_round inp st = monitor_round inp2 st.
Proof.
  intros Hfeed Hnow. rewrite (monitor_round_post inp (post_at inp2)).
  rewrite Hfeed, Hnow. destruct inp2; reflexivity.
Qed.

(** What the POST requests answer changes nothing in a run: two runs that
    meet the same feed outcomes and the same clock readings end with the
    same seen set and issue the same events, whatever their POSTs answer.
    So a notification whose POST failed is not sent again, in its round or
    in a later one. *)
Theorem monitor_new_tokens_ignores_post_outcomes `{Runtime}
  start start2 inputs inputs2 st :
  Forall2 (fun inp inp2 => feed inp = feed inp2 /\ now_at inp = now_at inp2)
    inputs inputs2 ->
  monitor_new_tokens start inputs st = monitor_new_tokens start2 inputs2 st.
Proof.
  intros Hsame. unfold monitor_new_tokens, mbind.
  rewrite !send_telegram_message_run.
  assert (Hrounds : forall st0, monitor_rounds inputs st0 = monitor_rounds inputs2 st0).
  { induction Hsame as [| inp inp2 rest rest2 [Hfeed Hnow] _ IH]; intros st0;
      [reflexivity |].
    cbn [monitor_rounds]. unfold mbind.
    rewrite (monitor_round_same_feed_and_clock inp inp2 st0 Hfeed Hnow).
    destruct (monitor_round inp2 st0) as [[[[] | e] st1] ev1]; [| reflexivity].
    rewrite IH. reflexivity. }
  rewrite Hrounds. reflexivity.
Qed.

Lemma monitor_new_tokens_ignores_post_outcomes_witness :
  @monitor_new_tokens sample_runtime (PostResponse 200 (Ok []))
    [sample_input feed_ABA] init
  = @monitor_new_tokens sample_runtime (PostFailed TimeoutError)
      [{| feed := Response 200 (BodyJson feed_ABA); now_at := fun _ => now0;
          post_at := fun _ => PostResponse 429 (Raise TimeoutError) |}] init.
Proof.
  apply (@monitor_new_tokens_ignores_post_outcomes sample_runtime).
  constructor; [split; reflexivity | constructor].
Defined.
